(** * Event registration: the Firestore data layer, the server action and the
      optimistic register button

    Shallow embedding of
    - [lib/firebase/firestore.ts]  ([registerForEvent], in its two variants:
      the one that keeps a registration marker per user, and the one that
      only keeps the counter and reads [status]),
    - [data/events.ts]             (the wrapper [registerForEvent]),
    - [actions/eventActions.ts]    ([validateAuth], [authError],
      [registerForEventAction]),
    - [components/RegisterButton.tsx] (the reducer, the derived values and
      the rendered button).

    Conventions.
    - A Firestore document is a record; a field the code guards with
      [|| 0] or [?? 0] is an [option].  [registeredCount] and [capacity] are
      integers ([z.number().int()] in the schema), modelled in [Z].
    - [date], [createdAt] and [updatedAt] are timestamps of the Admin SDK,
      as [createEvent] and [updateEvent] write them and as [getEventById]
      needs them ([data.date.toDate()]); such a timestamp and the ISO string
      the Admin class renders for it are both the number of milliseconds.
      The variant of [firestore.ts] with markers tests them against another
      class, see [clientIsoString].
    - [new Date()] and [Timestamp.now()] read a clock that is passed in as
      [now].
    - An exception is the [message] of the thrown [Error]. *)

From stdpp Require Import base option strings gmap fin_maps list.
From Stdlib Require Import ZArith Lia.

Open Scope Z_scope.
Open Scope string_scope.

(** ** Documents *)

(** A document of the [events] collection.  [other] stands for the fields
    that registration only copies ([title], [description], ...). *)
Record EventDoc := mkEventDoc {
  status : string;
  capacity : option Z;
  registeredCount : option Z;
  date : Z;
  createdAt : Z;
  updatedAt : Z;
  other : list (string * string)
}.

(** A document of [events/{eventId}/registrations], keyed by the user id. *)
Record RegistrationDoc := mkRegistrationDoc {
  userId : string;
  registeredAt : Z
}.

(** The value handed back to callers (type [Event]). *)
Record Event := mkEvent {
  id : string;
  ev_status : string;
  ev_capacity : option Z;
  ev_registeredCount : Z;
  ev_date : Z;
  ev_createdAt : Z;
  ev_updatedAt : Z;
  ev_other : list (string * string)
}.

(** The database: the [events] collection and, per event id, its
    [registrations] subcollection (which Firestore keeps independently of
    the parent document). *)
Record Store := mkStore {
  events : gmap string EventDoc;
  registrations : gmap string (gmap string RegistrationDoc)
}.

Definition markers (st : Store) (eventId : string) : gmap string RegistrationDoc :=
  default ∅ (registrations st !! eventId).

Definition markerCount (st : Store) (eventId : string) : Z :=
  Z.of_nat (size (markers st eventId)).

(** [x || 0] and [x ?? 0] on an integer field that may be missing. *)
Definition orZero (x : option Z) : Z := default 0 x.

(** [obj[key]] on the fields kept in [other]. *)
Fixpoint field (key : string) (fields : list (string * string)) : option string :=
  match fields with
  | [] => None
  | (k, v) :: rest => if bool_decide (k = key) then Some v else field key rest
  end.

(** [{...obj, [key]: value}] on the fields kept in [other]. *)
Fixpoint setField (key value : string) (fields : list (string * string))
  : list (string * string) :=
  match fields with
  | [] => [(key, value)]
  | (k, v) :: rest =>
      if bool_decide (k = key) then (k, value) :: rest
      else (k, v) :: setField key value rest
  end.

(** [{...obj, ...changes}] *)
Definition setFields (changes fields : list (string * string)) : list (string * string) :=
  foldl (λ acc kv, setField (fst kv) (snd kv) acc) fields changes.

(** What [createEvent] of [lib/firebase/firestore.ts] receives
    ([Omit<Event, 'id' | 'createdAt' | 'updatedAt'>]). *)
Record EventInput := mkEventInput {
  in_status : string;
  in_capacity : Z;
  in_registeredCount : Z;
  in_date : Z;
  in_other : list (string * string)
}.

(** What [createEvent] of [data/events.ts] receives: the same without
    [registeredCount]. *)
Record CreateInput := mkCreateInput {
  new_status : string;
  new_capacity : Z;
  new_date : Z;
  new_other : list (string * string)
}.

(** The [Partial<Event>] that the two [updateEvent] receive: the fields
    that are present. *)
Record EventChanges := mkEventChanges {
  ch_status : option string;
  ch_capacity : option Z;
  ch_registeredCount : option Z;
  ch_date : option Z;
  ch_other : list (string * string)
}.

(** What [updateEvent] of [lib/firebase/firestore.ts] returns:
    [{ id, ...data, updatedAt }], the changes only. *)
Record UpdatedEvent := mkUpdatedEvent {
  upd_id : string;
  upd_changes : EventChanges;
  upd_updatedAt : Z
}.

(** ** Transactions

    [adminDb.runTransaction(callback)]: the callback reads from a snapshot
    and queues writes; the writes are applied together when the callback
    returns, and none is applied when it throws. *)

Definition Throws (A : Type) : Type := string + A.

Record EventPatch := mkEventPatch {
  patch_registeredCount : option Z;
  patch_updatedAt : option Z
}.

Inductive Write :=
  | WSetRegistration (eventId uid : string) (r : RegistrationDoc)
  | WUpdateEvent (eventId : string) (p : EventPatch).

Definition Transaction (A : Type) : Type :=
  Store → list Write → Throws (A * list Write).

Definition tx_ret {A} (a : A) : Transaction A :=
  λ _ ws, inr (a, ws).

Definition tx_bind {A B} (m : Transaction A) (k : A → Transaction B) : Transaction B :=
  λ snap ws,
    match m snap ws with
    | inl e => inl e
    | inr (a, ws') => k a snap ws'
    end.

Definition tx_throw {A} (message : string) : Transaction A :=
  λ _ _, inl message.

Definition tx_getEvent (eventId : string) : Transaction (option EventDoc) :=
  λ snap ws, inr (events snap !! eventId, ws).

Definition tx_getRegistration (eventId uid : string) : Transaction (option RegistrationDoc) :=
  λ snap ws, inr (markers snap eventId !! uid, ws).

Definition tx_set (eventId uid : string) (r : RegistrationDoc) : Transaction unit :=
  λ _ ws, inr (tt, (ws ++ [WSetRegistration eventId uid r])%list).

Definition tx_update (eventId : string) (p : EventPatch) : Transaction unit :=
  λ _ ws, inr (tt, (ws ++ [WUpdateEvent eventId p])%list).

(** A step of the callback that reads and writes nothing but may throw. *)
Definition tx_lift {A} (r : Throws A) : Transaction A :=
  λ _ ws,
    match r with
    | inl e => inl e
    | inr a => inr (a, ws)
    end.

(** The callback is written in stdpp's monad notation: [x ← m; k] awaits [m]
    and continues with [k]; [m;; k] discards the result of [m]. *)
#[global] Instance tx_mret : MRet Transaction := @tx_ret.
#[global] Instance tx_mbind : MBind Transaction := λ A B k m, tx_bind m k.

Definition applyPatch (p : EventPatch) (d : EventDoc) : EventDoc :=
  {| status := status d;
     capacity := capacity d;
     registeredCount :=
       match patch_registeredCount p with
       | Some n => Some n
       | None => registeredCount d
       end;
     date := date d;
     createdAt := createdAt d;
     updatedAt := default (updatedAt d) (patch_updatedAt p);
     other := other d |}.

(** One queued write.  [update] is rejected when the document is absent. *)
Definition applyWrite (st : Store) (w : Write) : option Store :=
  match w with
  | WSetRegistration eventId uid r =>
      Some {| events := events st;
              registrations :=
                <[eventId := <[uid := r]> (markers st eventId)]> (registrations st) |}
  | WUpdateEvent eventId p =>
      match events st !! eventId with
      | Some d =>
          Some {| events := <[eventId := applyPatch p d]> (events st);
                  registrations := registrations st |}
      | None => None
      end
  end.

Fixpoint commit (st : Store) (ws : list Write) : option Store :=
  match ws with
  | [] => Some st
  | w :: ws' =>
      match applyWrite st w with
      | Some st' => commit st' ws'
      | None => None
      end
  end.

(** The message of the error Firestore raises for an [update] of a document
    that does not exist. *)
Definition NOT_FOUND : string := "NOT_FOUND".

Definition runTransaction {A} (body : Transaction A) (st : Store) : Throws A * Store :=
  match body st [] with
  | inl e => (inl e, st)
  | inr (a, ws) =>
      match commit st ws with
      | Some st' => (inr a, st')
      | None => (inl NOT_FOUND, st)
      end
  end.

(** ** [lib/firebase/firestore.ts], the variant with registration markers *)

Module Firestore.

(** What a date field can hold when [registerForEvent] renders it: a
    timestamp of the Admin SDK (what [adminDb] returns for the dates that
    [createEvent] and [updateEvent] store), a timestamp of the client SDK,
    or an ISO string. *)
Inductive DateValue :=
  | AdminTimestamp (ms : Z)
  | ClientTimestamp (ms : Z)
  | IsoString (ms : Z).

(** [x instanceof Timestamp ? x.toDate().toISOString()
                            : new Date(x).toISOString()]
    where [Timestamp] is the class of the client SDK (the import from
    ['firebase/firestore'], line 4).  For a timestamp of the Admin SDK the
    test is false, [new Date(x)] is an invalid date, and [toISOString]
    throws [RangeError: Invalid time value]. *)
Definition clientIsoString (x : DateValue) : Throws Z :=
  match x with
  | ClientTimestamp ms => inr ms
  | IsoString ms => inr ms
  | AdminTimestamp _ => inl "Invalid time value"
  end.

Definition registerForEvent (now : Z) (eventId uid : string) (st : Store)
  : Throws Event * Store :=
  runTransaction
    (eventDoc ← tx_getEvent eventId;
     match eventDoc with
     | None => tx_throw "Evento no encontrado"
     | Some data =>
         registrationDoc ← tx_getRegistration eventId uid;
         match registrationDoc with
         | Some _ => tx_throw "UserAlreadyRegistered"
         | None =>
             let currentCount := orZero (registeredCount data) in
             let cap := orZero (capacity data) in
             if bool_decide (currentCount >= cap) then tx_throw "EventFull"
             else
               tx_set eventId uid {| userId := uid; registeredAt := now |};;
               let newCount := currentCount + 1 in
               tx_update eventId
                 {| patch_registeredCount := Some newCount;
                    patch_updatedAt := None |};;
               isoDate ← tx_lift (clientIsoString (AdminTimestamp (date data)));
               isoCreatedAt ← tx_lift (clientIsoString (AdminTimestamp (createdAt data)));
               mret {| id := eventId;
                       ev_status := status data;
                       ev_capacity := capacity data;
                       ev_registeredCount := newCount;
                       ev_date := isoDate;
                       ev_createdAt := isoCreatedAt;
                       ev_updatedAt := now;
                       ev_other := other data |}
         end
     end)
    st.

(** [{ id: doc.id, ...data }] with the dates rendered: the document and its
    id. *)
Definition getEventById (id : string) (st : Store) : option (string * EventDoc) :=
  match events st !! id with
  | None => None
  | Some data => Some (id, data)
  end.

(** [newId] is the id that [collection.doc()] generates. *)
Definition createEvent (now : Z) (newId : string) (data : EventInput) (st : Store)
  : Event * Store :=
  ({| id := newId;
      ev_status := in_status data;
      ev_capacity := Some (in_capacity data);
      ev_registeredCount := in_registeredCount data;
      ev_date := in_date data;
      ev_createdAt := now;
      ev_updatedAt := now;
      ev_other := in_other data |},
   {| events :=
        <[newId := {| status := in_status data;
                      capacity := Some (in_capacity data);
                      registeredCount := Some (in_registeredCount data);
                      date := in_date data;
                      createdAt := now;
                      updatedAt := now;
                      other := in_other data |}]> (events st);
      registrations := registrations st |}).

(** [docRef.update({ ...data, updatedAt: now })] on a document. *)
Definition applyChanges (now : Z) (data : EventChanges) (d : EventDoc) : EventDoc :=
  {| status := default (status d) (ch_status data);
     capacity :=
       match ch_capacity data with
       | Some c => Some c
       | None => capacity d
       end;
     registeredCount :=
       match ch_registeredCount data with
       | Some n => Some n
       | None => registeredCount d
       end;
     date := default (date d) (ch_date data);
     createdAt := createdAt d;
     updatedAt := now;
     other := setFields (ch_other data) (other d) |}.

Definition updateEvent (now : Z) (id : string) (data : EventChanges) (st : Store)
  : Throws UpdatedEvent * Store :=
  match events st !! id with
  | None => (inl NOT_FOUND, st)
  | Some d =>
      (inr {| upd_id := id; upd_changes := data; upd_updatedAt := now |},
       {| events := <[id := applyChanges now data d]> (events st);
          registrations := registrations st |})
  end.

(** [doc(id).delete()]: the document goes, its subcollection stays. *)
Definition deleteEvent (id : string) (st : Store) : Store :=
  {| events := delete id (events st); registrations := registrations st |}.

End Firestore.

(** ** [lib/firebase/firestore.ts], the variant that only keeps the counter *)

Module FirestoreCounter.

Definition docToEvent (docId : string) (data : EventDoc) : Event :=
  {| id := docId;
     ev_status := status data;
     ev_capacity := capacity data;
     ev_registeredCount := orZero (registeredCount data);
     ev_date := date data;
     ev_createdAt := createdAt data;
     ev_updatedAt := updatedAt data;
     ev_other := other data |}.

(** [currentCount >= data.capacity]: the comparison is false when
    [capacity] is [undefined]. *)
Definition geCapacity (currentCount : Z) (cap : option Z) : bool :=
  match cap with
  | Some c => bool_decide (currentCount >= c)
  | None => false
  end.

Definition withCount (data : EventDoc) (n : Z) : EventDoc :=
  {| status := status data;
     capacity := capacity data;
     registeredCount := Some n;
     date := date data;
     createdAt := createdAt data;
     updatedAt := updatedAt data;
     other := other data |}.

(** The second argument, [_userId], is accepted and not used. *)
Definition registerForEvent (now : Z) (eventId : string) (_userId : option string)
    (st : Store) : Throws (option Event) * Store :=
  let '(result, st') :=
    runTransaction
      (docSnap ← tx_getEvent eventId;
       match docSnap with
       | None => mret None
       | Some data =>
           let currentCount := orZero (registeredCount data) in
           if geCapacity currentCount (capacity data) then mret None
           else if bool_decide (status data ≠ "publicado") then mret None
           else
             tx_update eventId
               {| patch_registeredCount := Some (currentCount + 1);
                  patch_updatedAt := Some now |};;
             mret (Some (withCount data (currentCount + 1)))
       end)
      st in
  match result with
  | inl e => (inl e, st')
  | inr None => (inr None, st')
  | inr (Some r) => (inr (Some (docToEvent eventId r)), st')
  end.

Definition getEventById (id : string) (st : Store) : option Event :=
  match events st !! id with
  | None => None
  | Some data => Some (docToEvent id data)
  end.

Definition deleteEvent (id : string) (st : Store) : bool * Store :=
  match events st !! id with
  | None => (false, st)
  | Some _ =>
      (true, {| events := delete id (events st); registrations := registrations st |})
  end.

Record EventStats := mkEventStats {
  total : Z;
  published : Z;
  upcoming : Z;
  totalCapacity : Z;
  totalRegistered : Z
}.

(** [snapshot.docs.map((doc) => doc.data())]; the statistics only count
    and add, so the order of the documents does not matter. *)
Definition allEvents (st : Store) : list EventDoc :=
  snd <$> map_to_list (events st).

Definition isPublished (e : EventDoc) : bool := bool_decide (status e = "publicado").

Definition getEventStats (now : Z) (st : Store) : EventStats :=
  let evs := allEvents st in
  let publishedEvents := filter (λ e, isPublished e = true) evs in
  let upcomingEvents := filter (λ e, date e > now) publishedEvents in
  {| total := Z.of_nat (length evs);
     published := Z.of_nat (length publishedEvents);
     upcoming := Z.of_nat (length upcomingEvents);
     totalCapacity := foldl (λ sum e, sum + orZero (capacity e)) 0 evs;
     totalRegistered := foldl (λ sum e, sum + orZero (registeredCount e)) 0 evs |}.

End FirestoreCounter.

(** ** [data/events.ts]

    The wrapper used by the server action; it calls the variant with
    markers.  Its [console.error] only writes to the server log and is left
    out. *)

Module DataEvents.

(** [!userId] *)
Definition noUserId (uid : option string) : bool :=
  match uid with
  | None => true
  | Some u => bool_decide (u = "")
  end.

Definition registerForEvent (now : Z) (id : string) (uid : option string)
    (st : Store) : Throws (option Event) * Store :=
  if noUserId uid then (inl "User ID required for registration", st)
  else
    match Firestore.registerForEvent now id (default "" uid) st with
    | (inr event, st') => (inr (Some event), st')
    | (inl message, st') =>
        if bool_decide (message = "UserAlreadyRegistered")
        then (inl "Ya estás registrado en este evento", st')
        else if bool_decide (message = "EventFull")
        then (inl "El evento está lleno", st')
        else (inr None, st')
    end.

Definition getEventById (id : string) (st : Store) : option (string * EventDoc) :=
  Firestore.getEventById id st.

Definition createEvent (now : Z) (newId : string) (data : CreateInput) (st : Store)
  : Event * Store :=
  Firestore.createEvent now newId
    {| in_status := new_status data;
       in_capacity := new_capacity data;
       in_registeredCount := 0;
       in_date := new_date data;
       in_other := new_other data |}
    st.

(** [userId && event.organizerId !== userId] *)
Definition notOwner (uid : option string) (event : string * EventDoc) : bool :=
  negb (noUserId uid)
  && bool_decide (field "organizerId" (other (snd event)) ≠ uid).

Definition updateEvent (now : Z) (id : string) (data : EventChanges)
    (uid : option string) (st : Store) : Throws (option UpdatedEvent) * Store :=
  match Firestore.getEventById id st with
  | None => (inr None, st)
  | Some event =>
      if notOwner uid event then (inl "Unauthorized", st)
      else
        match Firestore.updateEvent now id data st with
        | (inl e, st') => (inl e, st')
        | (inr updated, st') => (inr (Some updated), st')
        end
  end.

Definition deleteEvent (id : string) (uid : option string) (st : Store)
  : Throws bool * Store :=
  match Firestore.getEventById id st with
  | None => (inr false, st)
  | Some event =>
      if notOwner uid event then (inl "Unauthorized", st)
      else (inr true, Firestore.deleteEvent id st)
  end.

End DataEvents.

(** ** [actions/eventActions.ts] *)

Module EventActions.

Record FormState := mkFormState {
  success : bool;
  message : string;
  errors : option (list (string * list string));
  data : option Event
}.

(** What a request carries and what the platform provides: the cookies,
    [adminAuth.verifyIdToken] (which throws on an invalid token, and gives
    the [uid] otherwise) and [revalidatePath]. *)
Record Platform := mkPlatform {
  cookieStore : gmap string string;
  verifyIdToken : string → Throws string;
  revalidatePath : string → Throws unit
}.

(** [!s] for a string that may be absent. *)
Definition falsy (s : option string) : bool :=
  match s with
  | None => true
  | Some v => bool_decide (v = "")
  end.

(** [try { body } catch (error) { handler(error.message) }] *)
Definition try_catch {A} (body : Throws A) (handler : string → Throws A) : Throws A :=
  match body with
  | inl e => handler e
  | inr a => inr a
  end.

Definition validateAuth (pf : Platform) (idToken : option string)
  : Throws (option string) :=
  if falsy idToken then
    let tokenFromCookie := cookieStore pf !! "firebase-auth-token" in
    if falsy tokenFromCookie then inr None
    else
      try_catch
        (match verifyIdToken pf (default "" tokenFromCookie) with
         | inl e => inl e
         | inr uid => inr (Some uid)
         end)
        (λ _, inr None)
  else
    try_catch
      (match verifyIdToken pf (default "" idToken) with
       | inl e => inl e
       | inr uid => inr (Some uid)
       end)
      (λ _, inr None).

Definition authError : FormState :=
  {| success := false;
     message := "Debes iniciar sesión para realizar esta acción";
     errors := Some [("auth", ["No autenticado"])];
     data := None |}.

(** [error.message || 'Error al registrarse'] *)
Definition messageOr (m fallback : string) : string :=
  if bool_decide (m = "") then fallback else m.

Section Action.

(** [registerInDb], the function imported from [@/data/events]. *)
Variable registerInDb :
  string → option string → Store → Throws (option Event) * Store.

Definition registerForEventAction (pf : Platform) (id : string) (st : Store)
  : Throws FormState * Store :=
  match validateAuth pf None with
  | inl e => (inl e, st)
  | inr None => (inr authError, st)
  | inr (Some uid) =>
      let '(outcome, st') := registerInDb id (Some uid) st in
      (try_catch
         (match outcome with
          | inl e => inl e
          | inr None =>
              inr {| success := false;
                     message := "No se pudo completar el registro. Intenta de nuevo.";
                     errors := None;
                     data := None |}
          | inr (Some event) =>
              match revalidatePath pf ("/events/" ++ id) with
              | inl e => inl e
              | inr _ =>
                  inr {| success := true;
                         message := "¡Te has registrado correctamente!";
                         errors := None;
                         data := Some event |}
              end
          end)
         (λ m, inr {| success := false;
                      message := messageOr m "Error al registrarse";
                      errors := None;
                      data := None |}),
       st')
  end.

End Action.

(** An action either returns a [FormState] or ends in [redirect(path)]. *)
Inductive ActionOutcome :=
  | Returned (state : FormState)
  | Redirected (path : string).

Section DeleteAction.

(** [deleteEventInDb], the function imported from [@/data/events]. *)
Variable deleteEventInDb : string → option string → Store → Throws bool * Store.

Definition deleteEventAction (pf : Platform) (id : string) (st : Store)
  : Throws ActionOutcome * Store :=
  match validateAuth pf None with
  | inl e => (inl e, st)
  | inr None => (inr (Returned authError), st)
  | inr (Some uid) =>
      match deleteEventInDb id (Some uid) st with
      | (inl e, st') => (inl e, st')
      | (inr false, st') =>
          (inr (Returned
                  {| success := false;
                     message := "No se encontró el evento a eliminar o no tienes permisos";
                     errors := None;
                     data := None |}),
           st')
      | (inr true, st') =>
          match revalidatePath pf "/events" with
          | inl e => (inl e, st')
          | inr _ =>
              match revalidatePath pf "/" with
              | inl e => (inl e, st')
              | inr _ => (inr (Redirected "/events"), st')
              end
          end
      end
  end.

End DeleteAction.

End EventActions.

(** ** [components/RegisterButton.tsx]

    The component keeps no state of its own: [availableSpots] comes from the
    server-rendered props, and the two hooks hold the rest.  As the header of
    the component describes them: [useOptimistic] shows the reducer applied
    to the real value for the optimistic actions queued in the running
    transition, and the real value again once the transition has ended;
    [useTransition] gives [isPending], true while the transition runs. *)

Module RegisterButton.

Record RegisterButtonProps := mkProps {
  eventId : string;
  availableSpots : Z;
  isAvailable : bool
}.

Inductive OptimisticAction := register.

(** The reducer passed to [useOptimistic]. *)
Definition reducer (currentSpots : Z) (_action : OptimisticAction) : Z :=
  Z.max 0 (currentSpots - 1).

Definition useOptimistic (passthrough : Z) (queued : list OptimisticAction) : Z :=
  fold_left reducer queued passthrough.

(** Props, hook state, and the browser console. *)
Record Controller := mkController {
  props : RegisterButtonProps;
  isPending : bool;
  queued : list OptimisticAction;
  console : list (string * string)
}.

Definition optimisticSpots (c : Controller) : Z :=
  useOptimistic (availableSpots (props c)) (queued c).

Definition showRegistered (c : Controller) : bool :=
  bool_decide (optimisticSpots c < availableSpots (props c)).

Definition canRegister (c : Controller) : bool :=
  isAvailable (props c) && bool_decide (optimisticSpots c > 0)
  && negb (showRegistered c).

(** The four buttons the component can return. *)
Inductive Button :=
  | Registrado
  | EventoAgotado
  | NoDisponible
  | Registrando
  | Registrarme (plazas : Z).

Definition render (c : Controller) : Button :=
  if showRegistered c then Registrado
  else if negb (canRegister c) then
    (if bool_decide (optimisticSpots c = 0) then EventoAgotado else NoDisponible)
  else if isPending c then Registrando
  else Registrarme (optimisticSpots c).

(** Only the last button has an [onClick], and it is disabled while
    [isPending]. *)
Definition clickable (c : Controller) : bool :=
  match render c with
  | Registrarme _ => true
  | _ => false
  end.

(** [handleRegister] up to its [await]: the transition starts and the
    optimistic action is queued in it. *)
Definition handleRegister_start (c : Controller) : Controller :=
  {| props := props c;
     isPending := true;
     queued := (queued c ++ [register])%list;
     console := console c |}.

(** [handleRegister] after its [await]: a failure is written to the
    console.  The function returns nothing ([Promise<void>]). *)
Definition handleRegister_resume (result : EventActions.FormState) (c : Controller)
  : Controller :=
  if negb (EventActions.success result) then
    {| props := props c;
       isPending := isPending c;
       queued := queued c;
       console :=
         (console c ++ [("Error al registrar:", EventActions.message result)])%list |}
  else c.

(** The transition ends: the optimistic actions are dropped, and the
    component renders with the props the server now sends
    ([revalidatePath] on success; the same props otherwise). *)
Definition endTransition (fresh : RegisterButtonProps) (c : Controller) : Controller :=
  {| props := fresh;
     isPending := false;
     queued := [];
     console := console c |}.

(** A click on the button, if it can be clicked. *)
Definition click (c : Controller) : Controller :=
  if clickable c then handleRegister_start c else c.

(** The answer of the server action arrives. *)
Definition settle (result : EventActions.FormState) (fresh : RegisterButtonProps)
    (c : Controller) : Controller :=
  endTransition
    (if EventActions.success result then fresh else props c)
    (handleRegister_resume result c).

Definition mount (p : RegisterButtonProps) : Controller :=
  {| props := p; isPending := false; queued := []; console := [] |}.


End RegisterButton.

(** ** Sequences of calls and the properties stated about them *)

(** A sequence of calls, one transaction at a time: each call runs on the
    store the previous one left.  The result lists, per call, what it
    returned and the store after it. *)
Fixpoint runCalls {Call R : Type} (step : Call → Store → R * Store)
    (calls : list Call) (st : Store) : list (R * Store) :=
  match calls with
  | [] => []
  | c :: cs => let r := step c st in r :: runCalls step cs (snd r)
  end.

(** The store after the whole sequence. *)
Fixpoint finalStore {Call R : Type} (step : Call → Store → R * Store)
    (calls : list Call) (st : Store) : Store :=
  match calls with
  | [] => st
  | c :: cs => finalStore step cs (snd (step c st))
  end.


(** A call against one event: clock and user. *)
Definition registerOn (eventId : string) (c : Z * string) : Store → Throws Event * Store :=
  Firestore.registerForEvent (fst c) eventId (snd c).

Definition counterRegisterOn (eventId : string) (c : Z * option string)
  : Store → Throws (option Event) * Store :=
  FirestoreCounter.registerForEvent (fst c) eventId (snd c).

(** A call of the variant with markers: clock, event, user. *)
Definition markerCall (c : Z * string * string) : Store → Throws Event * Store :=
  let '(now, eventId, uid) := c in Firestore.registerForEvent now eventId uid.


Definition returnedSomeEvent (r : Throws (option Event)) : bool :=
  match r with inr (Some _) => true | _ => false end.

(** The event [eventId] has capacity [C] and its count is within bounds. *)
Definition withinCapacity (eventId : string) (C : Z) (st : Store) : Prop :=
  ∃ d, events st !! eventId = Some d ∧ capacity d = Some C
       ∧ 0 <= orZero (registeredCount d) <= C.

(** The count of [eventId] as the code reads it. *)
Definition countOf (eventId : string) (st : Store) : Z :=
  match events st !! eventId with
  | Some d => orZero (registeredCount d)
  | None => 0
  end.

(** Every event has as many markers as its count says. *)
Definition ledgerConsistent (st : Store) : Prop :=
  ∀ eventId d, events st !! eventId = Some d →
    markerCount st eventId = orZero (registeredCount d).

(** The failure causes of the specification, and the cause its algorithm
    (steps 2 to 5 of the registration service) assigns to a call; [None]
    when the call is to succeed. *)
Inductive Cause := NotFound | AlreadyRegistered | EventFull | EventNotPublished.

Definition specCause (st : Store) (eventId uid : string) : option Cause :=
  match events st !! eventId with
  | None => Some NotFound
  | Some d =>
      if bool_decide (is_Some (markers st eventId !! uid)) then Some AlreadyRegistered
      else if bool_decide (orZero (registeredCount d) >= orZero (capacity d))
      then Some EventFull
      else if bool_decide (status d ≠ "publicado") then Some EventNotPublished
      else None
  end.

(** What one call with markers does, case by case. *)
Inductive MarkerOutcome (now : Z) (eventId uid : string) (st : Store)
  : Throws Event * Store → Prop :=
  | OutNotFound :
      events st !! eventId = None →
      MarkerOutcome now eventId uid st (inl "Evento no encontrado", st)
  | OutAlready d r :
      events st !! eventId = Some d →
      markers st eventId !! uid = Some r →
      MarkerOutcome now eventId uid st (inl "UserAlreadyRegistered", st)
  | OutFull d :
      events st !! eventId = Some d →
      markers st eventId !! uid = None →
      orZero (registeredCount d) >= orZero (capacity d) →
      MarkerOutcome now eventId uid st (inl "EventFull", st)
  | OutInvalidTime d :
      events st !! eventId = Some d →
      markers st eventId !! uid = None →
      orZero (registeredCount d) < orZero (capacity d) →
      MarkerOutcome now eventId uid st (inl "Invalid time value", st).

(** What one call of the counter-only variant does. *)
Inductive CounterOutcome (now : Z) (eventId : string) (st : Store)
  : Throws (option Event) * Store → Prop :=
  | CntRefused :
      CounterOutcome now eventId st (inr None, st)
  | CntRegistered d ev :
      events st !! eventId = Some d →
      FirestoreCounter.geCapacity (orZero (registeredCount d)) (capacity d) = false →
      status d = "publicado" →
      CounterOutcome now eventId st
        (inr (Some ev),
         {| events :=
              <[eventId := applyPatch
                             {| patch_registeredCount := Some (orZero (registeredCount d) + 1);
                                patch_updatedAt := Some now |} d]> (events st);
            registrations := registrations st |}).

(** ** Sample data *)

Definition sampleDoc (s : string) (cap count : option Z) : EventDoc :=
  {| status := s; capacity := cap; registeredCount := count;
     date := 0; createdAt := 0; updatedAt := 0; other := [] |}.

(** A store with the single event ["e1"] and no registration. *)
Definition sampleStore (d : EventDoc) : Store :=
  {| events := {["e1" := d]}; registrations := ∅ |}.

(** The same, with ["u1"] registered for ["e1"]. *)
Definition sampleStoreWith (d : EventDoc) : Store :=
  {| events := {["e1" := d]};
     registrations :=
       {["e1" := {["u1" := {| userId := "u1"; registeredAt := 0 |}]}]} |}.

Definition emptyStore : Store := {| events := ∅; registrations := ∅ |}.

(** A request with a session cookie that verifies as user ["u1"]. *)
Definition samplePlatform : EventActions.Platform :=
  {| EventActions.cookieStore := {["firebase-auth-token" := "token-u1"]};
     EventActions.verifyIdToken :=
       λ t, if bool_decide (t = "token-u1") then inr "u1" else inl "invalid token";
     EventActions.revalidatePath := λ _, inr tt |}.

(** The server action over the data layer it imports. *)
Definition registerAction (now : Z) (pf : EventActions.Platform) (id : string) (st : Store)
  : Throws EventActions.FormState * Store :=
  EventActions.registerForEventAction (DataEvents.registerForEvent now) pf id st.

(** The delete action over the data layer it imports. *)
Definition deleteAction (pf : EventActions.Platform) (id : string) (st : Store)
  : Throws EventActions.ActionOutcome * Store :=
  EventActions.deleteEventAction DataEvents.deleteEvent pf id st.

Definition failed (message : string) : EventActions.FormState :=
  {| EventActions.success := false;
     EventActions.message := message;
     EventActions.errors := None;
     EventActions.data := None |}.

Definition succeededWith (event : Event) : EventActions.FormState :=
  {| EventActions.success := true;
     EventActions.message := "¡Te has registrado correctamente!";
     EventActions.errors := None;
     EventActions.data := Some event |}.

(** No transition is running: the button shows the real value. *)
Definition settled (c : RegisterButton.Controller) : Prop :=
  RegisterButton.isPending c = false ∧ RegisterButton.queued c = [].

Definition sampleProps (spots : Z) : RegisterButton.RegisterButtonProps :=
  {| RegisterButton.eventId := "e1";
     RegisterButton.availableSpots := spots;
     RegisterButton.isAvailable := true |}.

(** * Properties *)

(** ** The four outcomes of [registerForEvent] with markers *)

Section MarkerVariant.

Variables (now : Z) (eventId uid : string) (st : Store).

Lemma register_not_found :
  events st !! eventId = None →
  Firestore.registerForEvent now eventId uid st = (inl "Evento no encontrado", st).
Proof.
  intros He. unfold Firestore.registerForEvent, runTransaction.
  unfold mbind, tx_mbind, tx_bind, tx_getEvent. rewrite He. reflexivity.
Qed.

Lemma register_already d r :
  events st !! eventId = Some d →
  markers st eventId !! uid = Some r →
  Firestore.registerForEvent now eventId uid st = (inl "UserAlreadyRegistered", st).
Proof.
  intros He Hm. unfold Firestore.registerForEvent, runTransaction.
  unfold mbind, tx_mbind, tx_bind, tx_getEvent, tx_getRegistration.
  rewrite He, Hm. reflexivity.
Qed.

Lemma register_full d :
  events st !! eventId = Some d →
  markers st eventId !! uid = None →
  orZero (registeredCount d) >= orZero (capacity d) →
  Firestore.registerForEvent now eventId uid st = (inl "EventFull", st).
Proof.
  intros He Hm Hfull. unfold Firestore.registerForEvent, runTransaction.
  unfold mbind, tx_mbind, tx_bind, tx_getEvent, tx_getRegistration.
  rewrite He, Hm. rewrite bool_decide_eq_true_2 by exact Hfull. reflexivity.
Qed.

(** With a free place the callback queues the marker and the count, and
    then throws while it builds the value to return: nothing is
    committed. *)
Lemma register_invalid_time d :
  events st !! eventId = Some d →
  markers st eventId !! uid = None →
  orZero (registeredCount d) < orZero (capacity d) →
  Firestore.registerForEvent now eventId uid st = (inl "Invalid time value", st).
Proof.
  intros He Hm Hfree. unfold Firestore.registerForEvent, runTransaction.
  unfold mbind, mret, tx_mbind, tx_mret, tx_bind, tx_ret, tx_getEvent,
    tx_getRegistration, tx_set, tx_update, tx_lift, Firestore.clientIsoString.
  rewrite He, Hm. rewrite bool_decide_eq_false_2 by lia. reflexivity.
Qed.

End MarkerVariant.

(** ** The outcomes of the counter-only [registerForEvent] *)

Section CounterVariant.

Variables (now : Z) (eventId : string) (caller : option string) (st : Store).

Lemma counter_not_found :
  events st !! eventId = None →
  FirestoreCounter.registerForEvent now eventId caller st = (inr None, st).
Proof.
  intros He. unfold FirestoreCounter.registerForEvent, runTransaction.
  unfold mbind, tx_mbind, tx_bind, tx_getEvent. rewrite He. reflexivity.
Qed.

Lemma counter_full d c :
  events st !! eventId = Some d →
  capacity d = Some c →
  orZero (registeredCount d) >= c →
  FirestoreCounter.registerForEvent now eventId caller st = (inr None, st).
Proof.
  intros He Hc Hfull. unfold FirestoreCounter.registerForEvent, runTransaction.
  unfold mbind, tx_mbind, tx_bind, tx_getEvent. rewrite He, Hc. simpl.
  rewrite bool_decide_eq_true_2 by exact Hfull. reflexivity.
Qed.

Lemma counter_not_published d :
  events st !! eventId = Some d →
  status d ≠ "publicado" →
  FirestoreCounter.registerForEvent now eventId caller st = (inr None, st).
Proof.
  intros He Hs. unfold FirestoreCounter.registerForEvent, runTransaction.
  unfold mbind, tx_mbind, tx_bind, tx_getEvent. rewrite He.
  destruct (FirestoreCounter.geCapacity _ _); [reflexivity |].
  rewrite bool_decide_eq_true_2 by exact Hs. reflexivity.
Qed.

Lemma counter_success d :
  events st !! eventId = Some d →
  FirestoreCounter.geCapacity (orZero (registeredCount d)) (capacity d) = false →
  status d = "publicado" →
  FirestoreCounter.registerForEvent now eventId caller st =
    (inr (Some (FirestoreCounter.docToEvent eventId
                  (FirestoreCounter.withCount d (orZero (registeredCount d) + 1)))),
     {| events :=
          <[eventId := applyPatch
                         {| patch_registeredCount := Some (orZero (registeredCount d) + 1);
                            patch_updatedAt := Some now |} d]> (events st);
        registrations := registrations st |}).
Proof.
  intros He Hcap Hs. unfold FirestoreCounter.registerForEvent, runTransaction.
  unfold mbind, mret, tx_mbind, tx_mret, tx_bind, tx_ret, tx_getEvent, tx_update.
  rewrite He, Hcap. rewrite bool_decide_eq_false_2 by (intros Hne; exact (Hne Hs)).
  simpl. rewrite He. reflexivity.
Qed.


End CounterVariant.

(** ** Capacity: a bounded counter *)

Section Ledger.

Context {Call R : Type}.
Variable step : Call → Store → R * Store.
Variable succeeded : R → bool.
Variables (eventId : string) (C : Z).

Hypothesis step_within :
  ∀ c st, withinCapacity eventId C st → withinCapacity eventId C (snd (step c st)).
Hypothesis step_count :
  ∀ c st, withinCapacity eventId C st →
    countOf eventId (snd (step c st)) = countOf eventId st + (if succeeded (fst (step c st)) then 1 else 0).






End Ledger.

(** ** Case analysis of one call *)

Lemma register_outcome now eventId uid st :
  MarkerOutcome now eventId uid st (Firestore.registerForEvent now eventId uid st).
Proof.
  destruct (events st !! eventId) as [d|] eqn:He.
  - destruct (markers st eventId !! uid) as [r|] eqn:Hm.
    + rewrite (register_already now eventId uid st d r He Hm). eapply OutAlready; eauto.
    + destruct (Z_lt_ge_dec (orZero (registeredCount d)) (orZero (capacity d))) as [Hlt|Hge].
      * rewrite (register_invalid_time now eventId uid st d He Hm Hlt).
        eapply OutInvalidTime; eauto.
      * rewrite (register_full now eventId uid st d He Hm Hge). eapply OutFull; eauto.
  - rewrite (register_not_found now eventId uid st He). apply OutNotFound, He.
Qed.

(** No call of the variant with markers commits anything, and none returns
    an event. *)
Lemma register_store_unchanged now eventId uid st :
  snd (Firestore.registerForEvent now eventId uid st) = st.
Proof.
  destruct (register_outcome now eventId uid st); reflexivity.
Qed.


Lemma counter_outcome now eventId caller st :
  CounterOutcome now eventId st (FirestoreCounter.registerForEvent now eventId caller st).
Proof.
  destruct (events st !! eventId) as [d|] eqn:He.
  - destruct (FirestoreCounter.geCapacity (orZero (registeredCount d)) (capacity d)) eqn:Hcap.
    + unfold FirestoreCounter.registerForEvent, runTransaction.
      unfold mbind, tx_mbind, tx_bind, tx_getEvent. rewrite He, Hcap. constructor.
    + destruct (decide (status d = "publicado")) as [Hs|Hs].
      * rewrite (counter_success now eventId caller st d He Hcap Hs).
        eapply CntRegistered; eauto.
      * rewrite (counter_not_published now eventId caller st d He Hs). constructor.
  - rewrite (counter_not_found now eventId caller st He). constructor.
Qed.

(** ** C1: the count stays within the capacity *)







(** ** C2: markers and count *)







(** ** C3: one registration per user *)

Lemma markerCall_store_unchanged c st : snd (markerCall c st) = st.
Proof.
  destruct c as [[now eventId] uid]. apply register_store_unchanged.
Qed.

Lemma finalStore_markerCall calls : ∀ st, finalStore markerCall calls st = st.
Proof.
  induction calls as [|c cs IH]; intros st; simpl; [reflexivity |].
  rewrite markerCall_store_unchanged. apply IH.
Qed.

(** C3 (as amended).  With the variant of [registerForEvent] that keeps
    markers: a user who has a marker for an existing event gets
    [UserAlreadyRegistered] from every call for that event, whatever its
    capacity, count and status, directly or after any other calls, and
    nothing is written; so nobody who has a marker registers again.  The
    counter-only variant gives the same answer whoever calls. *)
Theorem second_registration_rejected now eventId uid d r st
    (between : list (Z * string * string)) :
  events st !! eventId = Some d →
  markers st eventId !! uid = Some r →
  let st' := finalStore markerCall between st in
  Firestore.registerForEvent now eventId uid st' = (inl "UserAlreadyRegistered", st')
  ∧ markers st' eventId !! uid = Some r
  ∧ ∀ caller caller' st0,
      FirestoreCounter.registerForEvent now eventId caller st0
      = FirestoreCounter.registerForEvent now eventId caller' st0.
Proof.
  intros He Hm. cbn zeta. rewrite finalStore_markerCall.
  split; [apply (register_already now eventId uid st d r He Hm) |].
  split; [exact Hm | reflexivity].
Qed.

Lemma second_registration_rejected_witness :
  let st := sampleStoreWith (sampleDoc "borrador" (Some 5) (Some 1)) in
  let st' := finalStore markerCall [(2, "e1", "u2"); (3, "e1", "u1")] st in
  Firestore.registerForEvent 4 "e1" "u1" st' = (inl "UserAlreadyRegistered", st').
Proof.
  cbn zeta.
  destruct (second_registration_rejected 4 "e1" "u1"
              (sampleDoc "borrador" (Some 5) (Some 1))
              {| userId := "u1"; registeredAt := 0 |}
              (sampleStoreWith (sampleDoc "borrador" (Some 5) (Some 1)))
              [(2, "e1", "u2"); (3, "e1", "u1")])
    as (Hagain & _).
  - reflexivity.
  - reflexivity.
  - exact Hagain.
Defined.

(** C3 fails as stated: the counter-only [registerForEvent] does not look
    at the user, and accepts the same user twice. *)
Lemma counter_registers_same_user_twice :
  let st := sampleStore (sampleDoc "publicado" (Some 2) (Some 0)) in
  let first := FirestoreCounter.registerForEvent 1 "e1" (Some "u1") st in
  let second := FirestoreCounter.registerForEvent 2 "e1" (Some "u1") (snd first) in
  returnedSomeEvent (fst first) = true
  ∧ returnedSomeEvent (fst second) = true
  ∧ countOf "e1" (snd second) = 2.
Proof.
  simpl. repeat split; reflexivity.
Qed.

(** ** C4: events that are not published *)

(** C4 (as amended).  With the variant of [registerForEvent] that reads
    [status]: for every existing event whose status is not ['publicado'],
    whatever its capacity and count, the call fails, returning [null], and
    writes nothing. *)
Theorem unpublished_event_refused now eventId caller d st :
  events st !! eventId = Some d →
  status d ≠ "publicado" →
  FirestoreCounter.registerForEvent now eventId caller st = (inr None, st).
Proof.
  intros He Hs. exact (counter_not_published now eventId caller st d He Hs).
Qed.

Lemma unpublished_event_refused_witness :
  FirestoreCounter.registerForEvent 1 "e1" (Some "u1")
    (sampleStore (sampleDoc "borrador" (Some 10) (Some 0)))
  = (inr None, sampleStore (sampleDoc "borrador" (Some 10) (Some 0))).
Proof.
  apply (unpublished_event_refused 1 "e1" (Some "u1")
           (sampleDoc "borrador" (Some 10) (Some 0))).
  - reflexivity.
  - simpl. discriminate.
Defined.

(** C4 fails as stated: no variant answers a call on an event that is not
    published with a failure of its own.  The variant with markers never
    reads [status]: on a draft it gives the errors it gives on a published
    event, [EventFull] when no place is left and the [RangeError] of the
    date conversion otherwise.  The counter-only variant gives [null], as
    it does for an event that does not exist. *)
Lemma unpublished_event_no_failure_of_its_own :
  let fullDraft := sampleStore (sampleDoc "borrador" (Some 1) (Some 1)) in
  let draft := sampleStore (sampleDoc "borrador" (Some 10) (Some 0)) in
  let published := sampleStore (sampleDoc "publicado" (Some 10) (Some 0)) in
  specCause draft "e1" "u1" = Some EventNotPublished
  ∧ Firestore.registerForEvent 1 "e1" "u1" fullDraft = (inl "EventFull", fullDraft)
  ∧ fst (Firestore.registerForEvent 1 "e1" "u1" draft) = inl "Invalid time value"
  ∧ fst (Firestore.registerForEvent 1 "e1" "u1" published) = inl "Invalid time value"
  ∧ fst (FirestoreCounter.registerForEvent 1 "e1" (Some "u1") draft) = inr None
  ∧ fst (FirestoreCounter.registerForEvent 1 "e1" (Some "u1") emptyStore) = inr None.
Proof.
  cbn zeta. repeat split; reflexivity.
Qed.

(** ** C5: a full event *)

(** C5 (as amended).  For an event whose count has reached its capacity,
    every call by a user without a marker fails and leaves the store (event
    record and markers) as it was, however often it is repeated: with the
    error [EventFull] in the variant with markers (a missing field read as
    0), and with [null] in the counter-only variant when the document has a
    [capacity]. *)
Theorem full_event_rejects eventId d st
    (calls : list (Z * string)) (counterCalls : list (Z * option string)) :
  events st !! eventId = Some d →
  orZero (registeredCount d) >= orZero (capacity d) →
  (Forall (λ c, markers st eventId !! snd c = None) calls →
   Forall (λ r, r = (inl "EventFull", st)) (runCalls (registerOn eventId) calls st))
  ∧ (is_Some (capacity d) →
     Forall (λ r, r = (inr None, st)) (runCalls (counterRegisterOn eventId) counterCalls st)).
Proof.
  intros He Hfull. split.
  - induction calls as [|c cs IH]; intros Hno; simpl; [constructor |].
    apply Forall_cons in Hno as [Hc Hcs].
    unfold registerOn at 1 3.
    rewrite (register_full (fst c) eventId (snd c) st d He Hc Hfull). simpl.
    constructor; [reflexivity | apply IH, Hcs].
  - intros [cap Hcap]. rewrite Hcap in Hfull. simpl in Hfull.
    induction counterCalls as [|c cs IH]; simpl; [constructor |].
    unfold counterRegisterOn at 1 3.
    rewrite (counter_full (fst c) eventId (snd c) st d cap He Hcap Hfull). simpl.
    constructor; [reflexivity | exact IH].
Qed.

Lemma full_event_rejects_witness :
  let st := sampleStoreWith (sampleDoc "publicado" (Some 1) (Some 1)) in
  Forall (λ r, r = (inl "EventFull", st))
    (runCalls (registerOn "e1") [(1, "u2"); (2, "u2"); (3, "u3")] st)
  ∧ Forall (λ r, r = (inr None, st))
      (runCalls (counterRegisterOn "e1") [(1, Some "u2"); (2, Some "u2")] st).
Proof.
  simpl.
  destruct (full_event_rejects "e1" (sampleDoc "publicado" (Some 1) (Some 1))
              (sampleStoreWith (sampleDoc "publicado" (Some 1) (Some 1)))
              [(1, "u2"); (2, "u2"); (3, "u3")] [(1, Some "u2"); (2, Some "u2")])
    as [HA HB].
  - reflexivity.
  - simpl. lia.
  - split.
    + apply HA. repeat constructor.
    + apply HB. simpl. eauto.
Defined.

(** C5 fails as stated for the counter-only variant: on a full event it
    answers [null], the value it gives for an event that does not exist, not
    [EventFull]; and a document without [capacity], which the variant with
    markers treats as full, is not full for it ([count >= undefined] is
    false) and gets the registration. *)
Lemma counter_full_event_answers_null :
  let full := sampleStore (sampleDoc "publicado" (Some 1) (Some 1)) in
  let noCapacity := sampleStore (sampleDoc "publicado" None (Some 5)) in
  specCause full "e1" "u1" = Some EventFull
  ∧ specCause emptyStore "e1" "u1" = Some NotFound
  ∧ FirestoreCounter.registerForEvent 1 "e1" (Some "u1") full = (inr None, full)
  ∧ FirestoreCounter.registerForEvent 1 "e1" (Some "u1") emptyStore = (inr None, emptyStore)
  ∧ Firestore.registerForEvent 1 "e1" "u1" noCapacity = (inl "EventFull", noCapacity)
  ∧ returnedSomeEvent (fst (FirestoreCounter.registerForEvent 1 "e1" (Some "u1") noCapacity))
    = true
  ∧ countOf "e1" (snd (FirestoreCounter.registerForEvent 1 "e1" (Some "u1") noCapacity)) = 6.
Proof.
  cbn zeta. repeat split; reflexivity.
Qed.

(** ** C9: documents without [capacity] *)

(** C9 (as amended).  In the variant of [registerForEvent] that keeps
    markers, a missing or zero [registeredCount] counts as 0 (for a user
    without a marker the call fails with [EventFull] exactly when the
    capacity, a missing one read as 0, is not positive) and a missing
    [capacity] as 0.  So for an existing event without [capacity] whose
    count is missing or not negative, every call fails and writes nothing
    (no marker is created): with [EventFull] for a user without a marker,
    and with [UserAlreadyRegistered] for a user who has one. *)
Theorem missing_capacity_rejects now eventId uid d st :
  events st !! eventId = Some d →
  (registeredCount d = None ∨ registeredCount d = Some 0 →
   markers st eventId !! uid = None →
   (Firestore.registerForEvent now eventId uid st = (inl "EventFull", st)
    ↔ orZero (capacity d) <= 0))
  ∧ (capacity d = None →
     0 <= orZero (registeredCount d) →
     Firestore.registerForEvent now eventId uid st =
       (inl (match markers st eventId !! uid with
             | Some _ => "UserAlreadyRegistered"
             | None => "EventFull"
             end), st)).
Proof.
  intros He. split.
  - intros Hcount Hm.
    assert (orZero (registeredCount d) = 0) as Hzero by (destruct Hcount as [-> | ->]; reflexivity).
    destruct (Z_lt_ge_dec 0 (orZero (capacity d))) as [Hpos|Hnot].
    + rewrite (register_invalid_time now eventId uid st d He Hm) by lia.
      split; [discriminate | lia].
    + rewrite (register_full now eventId uid st d He Hm) by lia.
      split; [lia | reflexivity].
  - intros Hcap Hcount.
    destruct (markers st eventId !! uid) as [r|] eqn:Hm.
    + apply (register_already now eventId uid st d r He Hm).
    + apply (register_full now eventId uid st d He Hm). rewrite Hcap. simpl. lia.
Qed.

Lemma missing_capacity_rejects_witness :
  (let st := sampleStore (sampleDoc "publicado" None None) in
   Firestore.registerForEvent 1 "e1" "u1" st = (inl "EventFull", st))
  ∧ (let st := sampleStore (sampleDoc "publicado" (Some 0) None) in
     Firestore.registerForEvent 1 "e1" "u1" st = (inl "EventFull", st)).
Proof.
  simpl. split.
  - destruct (missing_capacity_rejects 1 "e1" "u1" (sampleDoc "publicado" None None)
                (sampleStore (sampleDoc "publicado" None None)))
      as [_ Hfull].
    + reflexivity.
    + apply Hfull.
      * reflexivity.
      * simpl. lia.
  - destruct (missing_capacity_rejects 1 "e1" "u1" (sampleDoc "publicado" (Some 0) None)
                (sampleStore (sampleDoc "publicado" (Some 0) None)))
      as [Hcount _].
    + reflexivity.
    + apply Hcount.
      * left. reflexivity.
      * reflexivity.
      * simpl. lia.
Defined.

(** C9 fails as stated: the marker is looked up before the capacity, so a
    user who has a marker gets [UserAlreadyRegistered], not [EventFull],
    also when the event has no [capacity]. *)
Lemma missing_capacity_already_registered :
  let st := sampleStoreWith (sampleDoc "publicado" None (Some 1)) in
  ledgerConsistent st
  ∧ fst (Firestore.registerForEvent 1 "e1" "u1" st) = inl "UserAlreadyRegistered"
  ∧ fst (Firestore.registerForEvent 1 "e1" "u1" st) ≠ inl "EventFull".
Proof.
  simpl. split; [| split; [reflexivity | discriminate]].
  intros e' d' He'. simpl in He'.
  apply lookup_singleton_Some in He' as [<- <-]. reflexivity.
Qed.

(** ** C6: how a failure reaches the caller *)

Lemma validateAuth_total pf idToken :
  ∃ r, EventActions.validateAuth pf idToken = inr r.
Proof.
  unfold EventActions.validateAuth, EventActions.try_catch.
  destruct (EventActions.falsy idToken).
  - destruct (EventActions.falsy _); [eauto |].
    destruct (EventActions.verifyIdToken pf _); eauto.
  - destruct (EventActions.verifyIdToken pf _); eauto.
Qed.

(** C6 fails as stated: the counter-only [registerForEvent] returns the same
    [null] for an event that does not exist, one that is full and one that
    is not published. *)
Lemma counter_failures_collapse :
  let full := sampleStore (sampleDoc "publicado" (Some 1) (Some 1)) in
  let draft := sampleStore (sampleDoc "borrador" (Some 2) (Some 0)) in
  specCause emptyStore "e1" "u1" = Some NotFound
  ∧ specCause full "e1" "u1" = Some EventFull
  ∧ specCause draft "e1" "u1" = Some EventNotPublished
  ∧ fst (FirestoreCounter.registerForEvent 1 "e1" (Some "u1") emptyStore) = inr None
  ∧ fst (FirestoreCounter.registerForEvent 1 "e1" (Some "u1") full) = inr None
  ∧ fst (FirestoreCounter.registerForEvent 1 "e1" (Some "u1") draft) = inr None.
Proof.
  simpl. repeat split; reflexivity.
Qed.

(** C6 (as amended).  Through the server action over the variant with
    markers, for an authenticated user: a failed call returns a [FormState]
    with [success = false] whose [message] depends on the cause -- the
    generic 'No se pudo completar el registro. Intenta de nuevo.' when the
    event does not exist, 'Ya estás registrado en este evento' when the user
    has a marker, 'El evento está lleno' when the event is full -- and the
    store is unchanged.  Below the action the causes travel as thrown
    errors, except that the wrapper of [data/events.ts] answers [null] for
    an event that does not exist.  The counter-only variant answers every
    failure with [null]. *)
Theorem failure_reaches_caller now pf id uid st caller :
  EventActions.validateAuth pf None = inr (Some uid) →
  uid ≠ "" →
  (events st !! id = None →
     fst (Firestore.registerForEvent now id uid st) = inl "Evento no encontrado"
     ∧ fst (DataEvents.registerForEvent now id (Some uid) st) = inr None
     ∧ registerAction now pf id st =
         (inr (failed "No se pudo completar el registro. Intenta de nuevo."), st))
  ∧ (is_Some (events st !! id) → is_Some (markers st id !! uid) →
     fst (Firestore.registerForEvent now id uid st) = inl "UserAlreadyRegistered"
     ∧ fst (DataEvents.registerForEvent now id (Some uid) st)
       = inl "Ya estás registrado en este evento"
     ∧ registerAction now pf id st =
         (inr (failed "Ya estás registrado en este evento"), st))
  ∧ (∀ d, events st !! id = Some d → markers st id !! uid = None →
     orZero (registeredCount d) >= orZero (capacity d) →
     fst (Firestore.registerForEvent now id uid st) = inl "EventFull"
     ∧ fst (DataEvents.registerForEvent now id (Some uid) st) = inl "El evento está lleno"
     ∧ registerAction now pf id st = (inr (failed "El evento está lleno"), st))
  ∧ (returnedSomeEvent (fst (FirestoreCounter.registerForEvent now id caller st)) = false →
     FirestoreCounter.registerForEvent now id caller st = (inr None, st)).
Proof.
  intros Hauth Huid.
  assert (DataEvents.noUserId (Some uid) = false) as Hno.
  { simpl. apply bool_decide_eq_false_2, Huid. }
  unfold registerAction, EventActions.registerForEventAction, DataEvents.registerForEvent.
  rewrite Hauth, Hno. simpl.
  split; [| split; [| split]].
  - intros He. rewrite (register_not_found now id uid st He). simpl. done.
  - intros [d He] [r Hm]. rewrite (register_already now id uid st d r He Hm). simpl. done.
  - intros d He Hm Hfull. rewrite (register_full now id uid st d He Hm Hfull). simpl. done.
  - destruct (counter_outcome now id caller st) as [|d ev _ _ _]; simpl; [done | discriminate].
Qed.

Lemma failure_reaches_caller_witness :
  (registerAction 1 samplePlatform "e1" emptyStore =
     (inr (failed "No se pudo completar el registro. Intenta de nuevo."), emptyStore))
  ∧ (let st := sampleStoreWith (sampleDoc "publicado" (Some 5) (Some 1)) in
     registerAction 1 samplePlatform "e1" st =
       (inr (failed "Ya estás registrado en este evento"), st))
  ∧ (let st := sampleStore (sampleDoc "publicado" (Some 1) (Some 1)) in
     registerAction 1 samplePlatform "e1" st = (inr (failed "El evento está lleno"), st)).
Proof.
  simpl. split; [| split].
  - destruct (failure_reaches_caller 1 samplePlatform "e1" "u1" emptyStore None)
      as (Hmissing & _).
    + reflexivity.
    + discriminate.
    + apply Hmissing. reflexivity.
  - destruct (failure_reaches_caller 1 samplePlatform "e1" "u1"
                (sampleStoreWith (sampleDoc "publicado" (Some 5) (Some 1))) None)
      as (_ & Halready & _).
    + reflexivity.
    + discriminate.
    + apply Halready; vm_compute; eauto.
  - destruct (failure_reaches_caller 1 samplePlatform "e1" "u1"
                (sampleStore (sampleDoc "publicado" (Some 1) (Some 1))) None)
      as (_ & _ & Hfull & _).
    + reflexivity.
    + discriminate.
    + apply (Hfull (sampleDoc "publicado" (Some 1) (Some 1))).
      * reflexivity.
      * reflexivity.
      * simpl. lia.
Defined.

(** ** C10: the server action always answers with a [FormState] *)

(** C10.  [registerForEventAction] returns a [FormState] for every input and
    never throws, whatever the data layer does: without a valid session it
    returns [authError] ([success = false], with the [auth] error) and the
    store is untouched; an exception of the data layer (or of
    [revalidatePath]) gives [success = false] with its message; [null] gives
    [success = false]; and only a returned event gives [success = true] with
    that event as [data].  [validateAuth] itself never throws. *)
Theorem action_always_returns
    (registerInDb : string → option string → Store → Throws (option Event) * Store)
    pf id st :
  (∃ auth, EventActions.validateAuth pf None = inr auth)
  ∧ ∃ fs,
      fst (EventActions.registerForEventAction registerInDb pf id st) = inr fs
      ∧ match EventActions.validateAuth pf None with
        | inr (Some uid) =>
            snd (EventActions.registerForEventAction registerInDb pf id st)
            = snd (registerInDb id (Some uid) st)
            ∧ match fst (registerInDb id (Some uid) st) with
              | inl m => fs = failed (EventActions.messageOr m "Error al registrarse")
              | inr None => fs = failed "No se pudo completar el registro. Intenta de nuevo."
              | inr (Some event) =>
                  match EventActions.revalidatePath pf ("/events/" ++ id) with
                  | inr _ => fs = succeededWith event
                  | inl m => fs = failed (EventActions.messageOr m "Error al registrarse")
                  end
              end
        | _ =>
            fs = EventActions.authError
            ∧ EventActions.success fs = false
            ∧ EventActions.errors fs = Some [("auth", ["No autenticado"])]
            ∧ snd (EventActions.registerForEventAction registerInDb pf id st) = st
        end.
Proof.
  split; [apply validateAuth_total |].
  unfold EventActions.registerForEventAction.
  destruct (validateAuth_total pf None) as [auth ->].
  destruct auth as [uid|]; [| eexists; simpl; eauto].
  destruct (registerInDb id (Some uid) st) as [outcome st'] eqn:Hreg. simpl.
  destruct outcome as [m|[event|]]; simpl.
  - eexists. split; [reflexivity |]. split; reflexivity.
  - destruct (EventActions.revalidatePath pf ("/events/" ++ id)) as [m|[]]; simpl;
      eexists; (split; [reflexivity |]); split; reflexivity.
  - eexists. split; [reflexivity |]. split; reflexivity.
Qed.

(** ** C7 and C8: the register button *)

Lemma settled_optimisticSpots c :
  settled c → RegisterButton.optimisticSpots c = RegisterButton.availableSpots (RegisterButton.props c).
Proof.
  intros [_ Hq]. unfold RegisterButton.optimisticSpots. rewrite Hq. reflexivity.
Qed.

Lemma settled_not_registrado c :
  settled c → RegisterButton.render c ≠ RegisterButton.Registrado.
Proof.
  intros Hs. unfold RegisterButton.render, RegisterButton.showRegistered.
  rewrite (settled_optimisticSpots c Hs).
  rewrite bool_decide_eq_false_2 by lia.
  destruct (negb _); [destruct (bool_decide _); discriminate |].
  destruct (RegisterButton.isPending c); discriminate.
Qed.

Lemma settle_settled result fresh c :
  settled (RegisterButton.settle result fresh c).
Proof. split; reflexivity. Qed.

Lemma render_registrado_iff c :
  RegisterButton.render c = RegisterButton.Registrado
  ↔ RegisterButton.optimisticSpots c < RegisterButton.availableSpots (RegisterButton.props c).
Proof.
  unfold RegisterButton.render, RegisterButton.showRegistered.
  destruct (decide (RegisterButton.optimisticSpots c
                    < RegisterButton.availableSpots (RegisterButton.props c))) as [Hlt|Hge].
  - rewrite bool_decide_eq_true_2 by exact Hlt. split; [intros _; exact Hlt | reflexivity].
  - rewrite bool_decide_eq_false_2 by exact Hge. split; [| intros Hlt; contradiction].
    destruct (negb _); [destruct (bool_decide _); discriminate |].
    destruct (RegisterButton.isPending c); discriminate.
Qed.

(** C7 fails as stated: right after the click, while the server action is
    still pending, the button already reads '¡Registrado!'; once the server
    has confirmed (and sent 2 as the new [availableSpots]) the button reads
    'Registrarme (2 plazas)' again. *)
Lemma registrado_shown_before_confirmation :
  let c0 := RegisterButton.mount (sampleProps 3) in
  let c1 := RegisterButton.click c0 in
  let ev := FirestoreCounter.docToEvent "e1" (sampleDoc "publicado" (Some 5) (Some 3)) in
  RegisterButton.render c0 = RegisterButton.Registrarme 3
  ∧ RegisterButton.isPending c1 = true
  ∧ RegisterButton.optimisticSpots c1 = 2
  ∧ RegisterButton.render c1 = RegisterButton.Registrado
  ∧ RegisterButton.render (RegisterButton.settle (succeededWith ev) (sampleProps 2) c1)
    = RegisterButton.Registrarme 2.
Proof.
  simpl. repeat split; reflexivity.
Qed.

(** C7 (as amended).  '¡Registrado!' is rendered exactly when the optimistic
    value is below [availableSpots].  From a state with no transition
    running it is not rendered; a click on the enabled button starts the
    transition and renders it at once, before the server action has
    answered; and when the action has settled, confirmed or failed, no
    transition is running and it is not rendered. *)
Theorem registrado_only_while_speculating c :
  settled c →
  (∀ c', RegisterButton.render c' = RegisterButton.Registrado
         ↔ RegisterButton.optimisticSpots c'
           < RegisterButton.availableSpots (RegisterButton.props c'))
  ∧ RegisterButton.render c ≠ RegisterButton.Registrado
  ∧ (RegisterButton.clickable c = true →
     RegisterButton.isPending (RegisterButton.click c) = true
     ∧ RegisterButton.render (RegisterButton.click c) = RegisterButton.Registrado)
  ∧ ∀ result fresh,
      RegisterButton.render (RegisterButton.settle result fresh (RegisterButton.click c))
      ≠ RegisterButton.Registrado.
Proof.
  intros Hs. split; [apply render_registrado_iff |].
  split; [apply settled_not_registrado, Hs |].
  split; [| intros result fresh; apply settled_not_registrado, settle_settled].
  intros Hclick. unfold RegisterButton.click. rewrite Hclick.
  split; [reflexivity |].
  apply render_registrado_iff.
  unfold RegisterButton.clickable, RegisterButton.render in Hclick.
  destruct (RegisterButton.showRegistered c); [discriminate |].
  destruct (RegisterButton.canRegister c) eqn:Hcan; simpl in Hclick;
    [| destruct (bool_decide _); discriminate].
  unfold RegisterButton.canRegister in Hcan.
  apply andb_prop in Hcan as [Hcan _]. apply andb_prop in Hcan as [_ Hpos].
  apply bool_decide_eq_true_1 in Hpos.
  rewrite (settled_optimisticSpots c Hs) in Hpos.
  destruct Hs as [_ Hq].
  unfold RegisterButton.optimisticSpots, RegisterButton.handleRegister_start. simpl.
  rewrite Hq. simpl. unfold RegisterButton.reducer. lia.
Qed.

Lemma registrado_only_while_speculating_witness :
  let c := RegisterButton.mount (sampleProps 3) in
  settled c
  ∧ RegisterButton.render c ≠ RegisterButton.Registrado
  ∧ RegisterButton.isPending (RegisterButton.click c) = true
  ∧ RegisterButton.render (RegisterButton.click c) = RegisterButton.Registrado.
Proof.
  simpl.
  assert (settled (RegisterButton.mount (sampleProps 3))) as Hs by (split; reflexivity).
  split; [exact Hs |].
  destruct (registrado_only_while_speculating (RegisterButton.mount (sampleProps 3)) Hs)
    as (_ & Hidle & Hclick & _).
  split; [exact Hidle |]. apply Hclick. reflexivity.
Defined.


Lemma render_same_state c1 c2 :
  RegisterButton.props c1 = RegisterButton.props c2 →
  RegisterButton.isPending c1 = RegisterButton.isPending c2 →
  RegisterButton.queued c1 = RegisterButton.queued c2 →
  RegisterButton.render c1 = RegisterButton.render c2.
Proof.
  destruct c1, c2. cbn. intros -> -> ->. reflexivity.
Qed.




(** * Further properties of the data layer *)

(** ** What a registration leaves alone *)


(** X2.  The counter-only [registerForEvent] touches one event: the markers
    and every other event document are as before; of the event itself only
    [registeredCount] and [updatedAt] can change. *)
Theorem counter_changes_only_count now eventId caller st :
  let st' := snd (FirestoreCounter.registerForEvent now eventId caller st) in
  registrations st' = registrations st
  ∧ (∀ e', e' ≠ eventId → events st' !! e' = events st !! e')
  ∧ match events st !! eventId with
    | None => events st' !! eventId = None
    | Some d =>
        ∃ d', events st' !! eventId = Some d'
              ∧ status d' = status d ∧ capacity d' = capacity d
              ∧ date d' = date d ∧ createdAt d' = createdAt d
              ∧ other d' = other d
    end.
Proof.
  simpl.
  destruct (counter_outcome now eventId caller st) as [|d ev He Hcap Hs]; simpl.
  - split; [done |]. split; [done |]. destruct (events st !! eventId) eqn:He; eauto 10.
  - rewrite He. split; [done |]. split.
    + intros e' Hne. apply lookup_insert_ne. congruence.
    + eexists. split; [apply lookup_insert_eq |]. simpl. done.
Qed.

(** ** Registrations in either order *)



(** ** What a registration returns and what it stores *)

(** X6.  After a successful counter-only [registerForEvent],
    [getEventById] gives the returned event with the new count, except
    [updatedAt]: the stored document carries the time of the call, the
    returned event still the old [updatedAt]. *)
Theorem counter_register_then_read now eventId caller st :
  returnedSomeEvent (fst (FirestoreCounter.registerForEvent now eventId caller st)) = true →
  ∃ ev ev' d,
    events st !! eventId = Some d
    ∧ fst (FirestoreCounter.registerForEvent now eventId caller st) = inr (Some ev)
    ∧ FirestoreCounter.getEventById eventId
        (snd (FirestoreCounter.registerForEvent now eventId caller st)) = Some ev'
    ∧ id ev' = id ev ∧ id ev = eventId
    ∧ ev_registeredCount ev' = ev_registeredCount ev
    ∧ ev_registeredCount ev = orZero (registeredCount d) + 1
    ∧ ev_status ev' = ev_status ev ∧ ev_capacity ev' = ev_capacity ev
    ∧ ev_date ev' = ev_date ev ∧ ev_createdAt ev' = ev_createdAt ev
    ∧ ev_other ev' = ev_other ev
    ∧ ev_updatedAt ev' = now
    ∧ ev_updatedAt ev = updatedAt d.
Proof.
  intros Hok.
  destruct (events st !! eventId) as [d|] eqn:He;
    [| rewrite (counter_not_found now eventId caller st He) in Hok; discriminate].
  destruct (FirestoreCounter.geCapacity (orZero (registeredCount d)) (capacity d)) eqn:Hcap.
  { exfalso. revert Hok. unfold FirestoreCounter.registerForEvent, runTransaction.
    unfold mbind, tx_mbind, tx_bind, tx_getEvent. rewrite He, Hcap. discriminate. }
  destruct (decide (status d = "publicado")) as [Hs|Hs];
    [| rewrite (counter_not_published now eventId caller st d He Hs) in Hok; discriminate].
  rewrite (counter_success now eventId caller st d He Hcap Hs). cbn [fst snd].
  eexists _, _, d. split; [reflexivity |]. split; [reflexivity |].
  unfold FirestoreCounter.getEventById. cbn. rewrite lookup_insert_eq.
  split; [reflexivity |]. cbn. done.
Qed.

Lemma counter_register_then_read_witness :
  ∃ ev ev',
    fst (FirestoreCounter.registerForEvent 7 "e1" None
           (sampleStore (sampleDoc "publicado" (Some 2) None))) = inr (Some ev)
    ∧ FirestoreCounter.getEventById "e1"
        (snd (FirestoreCounter.registerForEvent 7 "e1" None
                (sampleStore (sampleDoc "publicado" (Some 2) None)))) = Some ev'
    ∧ ev_registeredCount ev' = ev_registeredCount ev
    ∧ ev_updatedAt ev' = 7.
Proof.
  destruct (counter_register_then_read 7 "e1" None
              (sampleStore (sampleDoc "publicado" (Some 2) None)))
    as (ev & ev' & d & _ & H1 & H2 & _ & _ & H3 & _ & _ & _ & _ & _ & _ & H4 & _).
  - reflexivity.
  - exists ev, ev'. split; [exact H1 |]. split; [exact H2 |]. split; [exact H3 | exact H4].
Defined.

(** ** Deleting *)

Lemma counter_delete_existing id d st :
  events st !! id = Some d →
  FirestoreCounter.deleteEvent id st
  = (true, {| events := delete id (events st); registrations := registrations st |}).
Proof. intros He. unfold FirestoreCounter.deleteEvent. by rewrite He. Qed.

Lemma counter_delete_missing id st :
  events st !! id = None → FirestoreCounter.deleteEvent id st = (false, st).
Proof. intros He. unfold FirestoreCounter.deleteEvent. by rewrite He. Qed.

(** X7.  The counter-only [deleteEvent] answers whether the event existed.
    Afterwards [getEventById] gives [null] for it, every other event is as
    before, the registrations are as before, [registerForEvent] refuses it,
    and deleting it again answers [false] and changes nothing. *)
Theorem counter_delete_event id st :
  let r := FirestoreCounter.deleteEvent id st in
  fst r = bool_decide (is_Some (events st !! id))
  ∧ FirestoreCounter.getEventById id (snd r) = None
  ∧ (∀ id', id' ≠ id →
       FirestoreCounter.getEventById id' (snd r) = FirestoreCounter.getEventById id' st)
  ∧ registrations (snd r) = registrations st
  ∧ (∀ now caller,
       FirestoreCounter.registerForEvent now id caller (snd r) = (inr None, snd r))
  ∧ FirestoreCounter.deleteEvent id (snd r) = (false, snd r).
Proof.
  cbn zeta.
  destruct (events st !! id) as [d|] eqn:He.
  - rewrite (counter_delete_existing id d st He). cbn [fst snd].
    set (st' := {| events := delete id (events st); registrations := registrations st |}).
    assert (events st' !! id = None) as Hgone by apply lookup_delete_eq.
    split; [done |].
    split; [unfold FirestoreCounter.getEventById; by rewrite Hgone |].
    split.
    { intros id' Hne. unfold FirestoreCounter.getEventById. cbn.
      rewrite lookup_delete_ne by congruence. reflexivity. }
    split; [reflexivity |].
    split; [intros; apply counter_not_found, Hgone |].
    apply counter_delete_missing, Hgone.
  - rewrite (counter_delete_missing id st He). cbn [fst snd].
    split; [done |].
    split; [unfold FirestoreCounter.getEventById; by rewrite He |].
    split; [done |]. split; [done |].
    split; [intros; apply counter_not_found, He |].
    apply counter_delete_missing, He.
Qed.

Lemma notOwner_true u event :
  u ≠ "" →
  field "organizerId" (other (snd event)) ≠ Some u →
  DataEvents.notOwner (Some u) event = true.
Proof.
  intros Hu Hne. unfold DataEvents.notOwner. cbn.
  rewrite (bool_decide_eq_false_2 _ Hu). cbn.
  apply bool_decide_eq_true_2, Hne.
Qed.

Lemma notOwner_owner u event :
  field "organizerId" (other (snd event)) = Some u →
  DataEvents.notOwner (Some u) event = false.
Proof.
  intros Hown. unfold DataEvents.notOwner.
  rewrite (bool_decide_eq_false_2 (_ ≠ _)) by (intros Hne; exact (Hne Hown)).
  apply andb_false_r.
Qed.

(** X8.  Through [data/events.ts], a caller who gives a user id can update
    or delete an event only as its organizer: for an existing event whose
    [organizerId] is missing or is another user, [updateEvent] and
    [deleteEvent] throw [Unauthorized] and change nothing.  Without a user
    id (absent or empty) the ownership is not checked and [deleteEvent]
    deletes the event. *)
Theorem only_organizer_changes_event now id data u d st :
  events st !! id = Some d →
  (u ≠ "" → field "organizerId" (other d) ≠ Some u →
   DataEvents.updateEvent now id data (Some u) st = (inl "Unauthorized", st)
   ∧ DataEvents.deleteEvent id (Some u) st = (inl "Unauthorized", st))
  ∧ DataEvents.deleteEvent id None st = (inr true, Firestore.deleteEvent id st)
  ∧ DataEvents.deleteEvent id (Some "") st = (inr true, Firestore.deleteEvent id st).
Proof.
  intros He.
  unfold DataEvents.updateEvent, DataEvents.deleteEvent, Firestore.getEventById.
  rewrite He. split; [| split; reflexivity].
  intros Hu Hne. rewrite (notOwner_true u (id, d) Hu Hne). done.
Qed.

Lemma only_organizer_changes_event_witness :
  let d := {| status := "publicado"; capacity := Some 3; registeredCount := Some 0;
              date := 0; createdAt := 0; updatedAt := 0;
              other := [("title", "Taller"); ("organizerId", "ana")] |} in
  DataEvents.deleteEvent "e1" (Some "luis") (sampleStore d)
  = (inl "Unauthorized", sampleStore d).
Proof.
  cbn zeta.
  destruct (only_organizer_changes_event 1 "e1"
              {| ch_status := None; ch_capacity := None; ch_registeredCount := None;
                 ch_date := None; ch_other := [] |}
              "luis"
              {| status := "publicado"; capacity := Some 3; registeredCount := Some 0;
                 date := 0; createdAt := 0; updatedAt := 0;
                 other := [("title", "Taller"); ("organizerId", "ana")] |}
              (sampleStore
                 {| status := "publicado"; capacity := Some 3; registeredCount := Some 0;
                    date := 0; createdAt := 0; updatedAt := 0;
                    other := [("title", "Taller"); ("organizerId", "ana")] |}))
    as [Hdenied _].
  - reflexivity.
  - destruct Hdenied as [_ Hdel]; [discriminate | cbn; discriminate | exact Hdel].
Defined.

(** X9.  [deleteEvent] of [data/events.ts] removes the document only.  For
    the organizer of an existing event it answers [true]; afterwards
    [getEventById] gives [null], every other event is as before, the
    registration markers of the deleted event are all still there, and
    [registerForEvent] throws 'Evento no encontrado' for every user. *)
Theorem delete_keeps_markers id u d st :
  events st !! id = Some d →
  field "organizerId" (other d) = Some u →
  let r := DataEvents.deleteEvent id (Some u) st in
  fst r = inr true
  ∧ DataEvents.getEventById id (snd r) = None
  ∧ (∀ id', id' ≠ id →
       DataEvents.getEventById id' (snd r) = DataEvents.getEventById id' st)
  ∧ (∀ id', markers (snd r) id' = markers st id')
  ∧ (∀ now uid,
       Firestore.registerForEvent now id uid (snd r) = (inl "Evento no encontrado", snd r)).
Proof.
  intros He Hown. cbn zeta.
  unfold DataEvents.deleteEvent, Firestore.getEventById. rewrite He.
  rewrite (notOwner_owner u (id, d) Hown). cbn [fst snd].
  assert (events (Firestore.deleteEvent id st) !! id = None) as Hgone
    by apply lookup_delete_eq.
  split; [reflexivity |].
  split; [unfold DataEvents.getEventById, Firestore.getEventById; by rewrite Hgone |].
  split.
  { intros id' Hne. unfold DataEvents.getEventById, Firestore.getEventById. cbn.
    rewrite lookup_delete_ne by congruence. reflexivity. }
  split; [reflexivity |].
  intros. apply register_not_found, Hgone.
Qed.

Lemma delete_keeps_markers_witness :
  let d := {| status := "publicado"; capacity := Some 3; registeredCount := Some 1;
              date := 0; createdAt := 0; updatedAt := 0;
              other := [("organizerId", "ana")] |} in
  let r := DataEvents.deleteEvent "e1" (Some "ana") (sampleStoreWith d) in
  fst r = inr true
  ∧ DataEvents.getEventById "e1" (snd r) = None
  ∧ markers (snd r) "e1" = markers (sampleStoreWith d) "e1"
  ∧ Firestore.registerForEvent 5 "e1" "u2" (snd r) = (inl "Evento no encontrado", snd r).
Proof.
  cbn zeta.
  destruct (delete_keeps_markers "e1" "ana"
              {| status := "publicado"; capacity := Some 3; registeredCount := Some 1;
                 date := 0; createdAt := 0; updatedAt := 0;
                 other := [("organizerId", "ana")] |}
              (sampleStoreWith
                 {| status := "publicado"; capacity := Some 3; registeredCount := Some 1;
                    date := 0; createdAt := 0; updatedAt := 0;
                    other := [("organizerId", "ana")] |}))
    as (H1 & H2 & _ & H3 & H4).
  - reflexivity.
  - reflexivity.
  - split; [exact H1 |]. split; [exact H2 |]. split; [apply H3 | apply H4].
Defined.

(** X10.  [deleteEventAction] over [data/events.ts]: without a valid
    session it returns [authError] and changes nothing.  For an
    authenticated user: a missing event gives a [FormState] with
    [success = false]; an event of another organizer makes the action throw
    [Unauthorized] (the exception is not caught here) and changes nothing;
    the organizer's own event is deleted and the action ends in a redirect
    to '/events'.  The action never returns a [FormState] with
    [success = true]. *)
Theorem delete_action_outcomes pf id st :
  (EventActions.validateAuth pf None = inr None →
   deleteAction pf id st = (inr (EventActions.Returned EventActions.authError), st))
  ∧ (∀ uid, EventActions.validateAuth pf None = inr (Some uid) → uid ≠ "" →
       (events st !! id = None →
        deleteAction pf id st =
          (inr (EventActions.Returned
                  (failed "No se encontró el evento a eliminar o no tienes permisos")), st))
       ∧ (∀ d, events st !! id = Some d → field "organizerId" (other d) ≠ Some uid →
            deleteAction pf id st = (inl "Unauthorized", st))
       ∧ (∀ d, events st !! id = Some d → field "organizerId" (other d) = Some uid →
            snd (deleteAction pf id st) = Firestore.deleteEvent id st
            ∧ (EventActions.revalidatePath pf "/events" = inr tt →
               EventActions.revalidatePath pf "/" = inr tt →
               fst (deleteAction pf id st) = inr (EventActions.Redirected "/events"))))
  ∧ (∀ fs, fst (deleteAction pf id st) = inr (EventActions.Returned fs) →
       EventActions.success fs = false).
Proof.
  unfold deleteAction, EventActions.deleteEventAction.
  split; [intros ->; reflexivity |]. split.
  - intros uid -> Huid.
    unfold DataEvents.deleteEvent, Firestore.getEventById.
    split; [intros ->; reflexivity |]. split.
    + intros d -> Hne. rewrite (notOwner_true uid (id, d) Huid Hne). reflexivity.
    + intros d -> Hown. rewrite (notOwner_owner uid (id, d) Hown).
      destruct (EventActions.revalidatePath pf "/events") as [e|[]];
        [split; [reflexivity | discriminate] |].
      destruct (EventActions.revalidatePath pf "/") as [e|[]];
        [split; [reflexivity | discriminate] |].
      split; reflexivity.
  - intros fs.
    destruct (validateAuth_total pf None) as [[uid|] ->].
    + destruct (DataEvents.deleteEvent id (Some uid) st) as [[e|[|]] st']; cbn.
      * discriminate.
      * destruct (EventActions.revalidatePath pf "/events") as [e|[]]; [discriminate |].
        destruct (EventActions.revalidatePath pf "/") as [e|[]]; discriminate.
      * intros [= <-]. reflexivity.
    + cbn. intros [= <-]. reflexivity.
Qed.

Lemma delete_action_outcomes_witness :
  let d := {| status := "publicado"; capacity := Some 3; registeredCount := Some 0;
              date := 0; createdAt := 0; updatedAt := 0;
              other := [("organizerId", "ana")] |} in
  deleteAction samplePlatform "e1" (sampleStore d) = (inl "Unauthorized", sampleStore d)
  ∧ deleteAction samplePlatform "e2" (sampleStore d) =
      (inr (EventActions.Returned
              (failed "No se encontró el evento a eliminar o no tienes permisos")),
       sampleStore d).
Proof.
  cbn zeta.
  destruct (delete_action_outcomes samplePlatform "e1"
              (sampleStore
                 {| status := "publicado"; capacity := Some 3; registeredCount := Some 0;
                    date := 0; createdAt := 0; updatedAt := 0;
                    other := [("organizerId", "ana")] |}))
    as (_ & Hauth & _).
  destruct (delete_action_outcomes samplePlatform "e2"
              (sampleStore
                 {| status := "publicado"; capacity := Some 3; registeredCount := Some 0;
                    date := 0; createdAt := 0; updatedAt := 0;
                    other := [("organizerId", "ana")] |}))
    as (_ & Hauth2 & _).
  destruct (Hauth "u1") as (_ & Hother & _); [reflexivity | discriminate |].
  destruct (Hauth2 "u1") as (Hmissing & _); [reflexivity | discriminate |].
  split.
  - eapply Hother; [reflexivity | cbn; discriminate].
  - apply Hmissing. reflexivity.
Defined.

(** ** Creating and updating *)

Lemma field_setField_same key value fields :
  field key (setField key value fields) = Some value.
Proof.
  induction fields as [|[k v] rest IH]; cbn.
  - by rewrite bool_decide_eq_true_2.
  - destruct (decide (k = key)) as [->|Hne].
    + rewrite bool_decide_eq_true_2 by done. cbn. by rewrite bool_decide_eq_true_2.
    + rewrite bool_decide_eq_false_2 by done. cbn.
      rewrite bool_decide_eq_false_2 by done. exact IH.
Qed.

Lemma field_setField_other key key' value fields :
  key' ≠ key →
  field key' (setField key value fields) = field key' fields.
Proof.
  intros Hne. induction fields as [|[k v] rest IH]; cbn.
  - rewrite bool_decide_eq_false_2 by congruence. reflexivity.
  - destruct (decide (k = key)) as [->|Hk].
    + rewrite bool_decide_eq_true_2 by done. cbn.
      rewrite !bool_decide_eq_false_2 by congruence. reflexivity.
    + rewrite bool_decide_eq_false_2 by done. cbn.
      destruct (bool_decide (k = key')); [reflexivity | exact IH].
Qed.

(** X11.  [createEvent] of [data/events.ts], when the generated id has no
    registrations yet: the new event starts with [registeredCount = 0],
    reading it back gives the document that was written, every other event
    and all registrations are as before, markers and counts still agree,
    and [registerForEvent] (with markers) of any user for the new event
    writes nothing: it throws ['EventFull'] when the capacity is not
    positive, and otherwise it fails at the date conversion of its return
    value, on the timestamp [createEvent] has just stored. *)
Theorem create_then_register now newId data st :
  markers st newId = ∅ →
  let r := DataEvents.createEvent now newId data st in
  id (fst r) = newId
  ∧ ev_registeredCount (fst r) = 0
  ∧ DataEvents.getEventById newId (snd r)
    = Some (newId, {| status := new_status data;
                      capacity := Some (new_capacity data);
                      registeredCount := Some 0;
                      date := new_date data;
                      createdAt := now;
                      updatedAt := now;
                      other := new_other data |})
  ∧ (∀ id', id' ≠ newId →
       DataEvents.getEventById id' (snd r) = DataEvents.getEventById id' st)
  ∧ registrations (snd r) = registrations st
  ∧ (ledgerConsistent st → ledgerConsistent (snd r))
  ∧ ∀ now' uid,
      Firestore.registerForEvent now' newId uid (snd r)
      = (inl (if bool_decide (0 < new_capacity data)
              then "Invalid time value" else "EventFull"), snd r).
Proof.
  intros Hfresh. cbn zeta.
  unfold DataEvents.createEvent, Firestore.createEvent.
  cbn [fst snd in_status in_capacity in_registeredCount in_date in_other].
  set (doc := {| status := new_status data; capacity := Some (new_capacity data);
                 registeredCount := Some 0; date := new_date data;
                 createdAt := now; updatedAt := now; other := new_other data |}).
  set (st' := {| events := <[newId := doc]> (events st);
                 registrations := registrations st |}).
  assert (events st' !! newId = Some doc) as Hnew by apply lookup_insert_eq.
  assert (markers st' newId = ∅) as Hfresh' by exact Hfresh.
  split; [reflexivity |]. split; [reflexivity |].
  split; [unfold DataEvents.getEventById, Firestore.getEventById; by rewrite Hnew |].
  split.
  { intros id' Hne. unfold DataEvents.getEventById, Firestore.getEventById. cbn.
    rewrite lookup_insert_ne by congruence. reflexivity. }
  split; [reflexivity |]. split.
  - intros Hcons e' d' He'. cbn in He'.
    destruct (decide (newId = e')) as [<-|Hne].
    + rewrite lookup_insert_eq in He'. injection He' as <-.
      unfold markerCount. rewrite Hfresh'. reflexivity.
    + rewrite lookup_insert_ne in He' by exact Hne. apply (Hcons _ _ He').
  - intros now' uid.
    assert (markers st' newId !! uid = None) as Hm by (rewrite Hfresh'; apply lookup_empty).
    destruct (decide (0 < new_capacity data)) as [Hpos|Hnot].
    + rewrite (register_invalid_time now' newId uid st' doc Hnew Hm) by (cbn; lia).
      by rewrite (bool_decide_eq_true_2 _ Hpos).
    + rewrite (register_full now' newId uid st' doc Hnew Hm) by (cbn; lia).
      by rewrite (bool_decide_eq_false_2 _ Hnot).
Qed.

Lemma create_then_register_witness :
  let data := {| new_status := "borrador"; new_capacity := 2; new_date := 10;
                 new_other := [("organizerId", "ana")] |} in
  let r := DataEvents.createEvent 5 "e2" data
             (sampleStoreWith (sampleDoc "publicado" (Some 1) (Some 1))) in
  ev_registeredCount (fst r) = 0
  ∧ Firestore.registerForEvent 6 "e2" "u1" (snd r)
    = (inl "Invalid time value", snd r).
Proof.
  cbn zeta.
  destruct (create_then_register 5 "e2"
              {| new_status := "borrador"; new_capacity := 2; new_date := 10;
                 new_other := [("organizerId", "ana")] |}
              (sampleStoreWith (sampleDoc "publicado" (Some 1) (Some 1))))
    as (_ & Hzero & _ & _ & _ & _ & Hreg).
  - reflexivity.
  - split; [exact Hzero |]. exact (Hreg 6 "u1").
Defined.

Lemma update_by_organizer_result now id data u d st :
  events st !! id = Some d →
  field "organizerId" (other d) = Some u →
  DataEvents.updateEvent now id data (Some u) st
  = (inr (Some {| upd_id := id; upd_changes := data; upd_updatedAt := now |}),
     {| events := <[id := Firestore.applyChanges now data d]> (events st);
        registrations := registrations st |}).
Proof.
  intros He Hown.
  unfold DataEvents.updateEvent, Firestore.getEventById, Firestore.updateEvent.
  rewrite He. rewrite (notOwner_owner u (id, d) Hown). reflexivity.
Qed.

(** X12.  [updateEvent] of [data/events.ts], called by the organizer of an
    existing event with changes that carry no [registeredCount]: it returns
    only the changes (with the id and the new [updatedAt]), and in the store
    the event keeps its count and its [createdAt] and gets the new
    [updatedAt]; every other event and all registrations are as before, so
    markers and counts still agree. *)
Theorem update_keeps_registrations now id data u d st :
  events st !! id = Some d →
  field "organizerId" (other d) = Some u →
  ch_registeredCount data = None →
  let r := DataEvents.updateEvent now id data (Some u) st in
  fst r = inr (Some {| upd_id := id; upd_changes := data; upd_updatedAt := now |})
  ∧ registrations (snd r) = registrations st
  ∧ (∀ id', id' ≠ id → events (snd r) !! id' = events st !! id')
  ∧ (∃ d', events (snd r) !! id = Some d'
           ∧ registeredCount d' = registeredCount d
           ∧ createdAt d' = createdAt d
           ∧ updatedAt d' = now)
  ∧ (ledgerConsistent st → ledgerConsistent (snd r)).
Proof.
  intros He Hown Hcount. cbn zeta.
  rewrite (update_by_organizer_result now id data u d st He Hown). cbn [fst snd].
  split; [reflexivity |]. split; [reflexivity |]. split.
  { intros id' Hne. cbn. apply lookup_insert_ne. congruence. }
  split.
  { eexists. split; [apply lookup_insert_eq |]. cbn. by rewrite Hcount. }
  intros Hcons e' d' He'. cbn in He'.
  destruct (decide (id = e')) as [<-|Hne].
  - rewrite lookup_insert_eq in He'. injection He' as <-. cbn. rewrite Hcount.
    apply (Hcons _ _ He).
  - rewrite lookup_insert_ne in He' by exact Hne. apply (Hcons _ _ He').
Qed.

Lemma update_keeps_registrations_witness :
  let d := {| status := "borrador"; capacity := Some 3; registeredCount := Some 1;
              date := 0; createdAt := 0; updatedAt := 0;
              other := [("organizerId", "ana")] |} in
  let data := {| ch_status := Some "publicado"; ch_capacity := None;
                 ch_registeredCount := None; ch_date := None;
                 ch_other := [("title", "Taller")] |} in
  let r := DataEvents.updateEvent 9 "e1" data (Some "ana") (sampleStoreWith d) in
  registrations (snd r) = registrations (sampleStoreWith d)
  ∧ ∃ d', events (snd r) !! "e1" = Some d'
          ∧ registeredCount d' = Some 1 ∧ createdAt d' = 0 ∧ updatedAt d' = 9.
Proof.
  cbn zeta.
  destruct (update_keeps_registrations 9 "e1"
              {| ch_status := Some "publicado"; ch_capacity := None;
                 ch_registeredCount := None; ch_date := None;
                 ch_other := [("title", "Taller")] |}
              "ana"
              {| status := "borrador"; capacity := Some 3; registeredCount := Some 1;
                 date := 0; createdAt := 0; updatedAt := 0;
                 other := [("organizerId", "ana")] |}
              (sampleStoreWith
                 {| status := "borrador"; capacity := Some 3; registeredCount := Some 1;
                    date := 0; createdAt := 0; updatedAt := 0;
                    other := [("organizerId", "ana")] |}))
    as (_ & Hregs & _ & Hdoc & _).
  - reflexivity.
  - reflexivity.
  - reflexivity.
  - split; [exact Hregs | exact Hdoc].
Defined.

(** X13.  [updateEvent] does not compare the new capacity with the count:
    the organizer can set a capacity at or below [registeredCount].  After
    that every registration of a user without a marker fails with
    [EventFull]; and when the new capacity is below the count, the stored
    count exceeds the capacity. *)
Theorem lowered_capacity_closes_event now id data u d c st :
  events st !! id = Some d →
  field "organizerId" (other d) = Some u →
  ch_registeredCount data = None →
  ch_capacity data = Some c →
  c <= orZero (registeredCount d) →
  let st' := snd (DataEvents.updateEvent now id data (Some u) st) in
  (∃ d', events st' !! id = Some d' ∧ capacity d' = Some c
         ∧ registeredCount d' = registeredCount d)
  ∧ (∀ now' uid, markers st id !! uid = None →
       Firestore.registerForEvent now' id uid st' = (inl "EventFull", st'))
  ∧ (c < orZero (registeredCount d) → ¬ withinCapacity id c st').
Proof.
  intros He Hown Hcount Hcap Hle. cbn zeta.
  rewrite (update_by_organizer_result now id data u d st He Hown). cbn [snd].
  set (st' := {| events := <[id := Firestore.applyChanges now data d]> (events st);
                 registrations := registrations st |}).
  assert (events st' !! id = Some (Firestore.applyChanges now data d)) as Hnew
    by apply lookup_insert_eq.
  assert (capacity (Firestore.applyChanges now data d) = Some c) as Hc
    by (cbn; by rewrite Hcap).
  assert (registeredCount (Firestore.applyChanges now data d) = registeredCount d) as Hn
    by (cbn; by rewrite Hcount).
  split; [eauto |]. split.
  - intros now' uid Hm.
    apply (register_full now' id uid st' _ Hnew); [exact Hm |].
    rewrite Hc, Hn. cbn. lia.
  - intros Hlt (d' & Hd' & _ & Hb). rewrite Hnew in Hd'. injection Hd' as <-.
    rewrite Hn in Hb. lia.
Qed.

Lemma lowered_capacity_closes_event_witness :
  let d := {| status := "publicado"; capacity := Some 10; registeredCount := Some 4;
              date := 0; createdAt := 0; updatedAt := 0;
              other := [("organizerId", "ana")] |} in
  let data := {| ch_status := None; ch_capacity := Some 2;
                 ch_registeredCount := None; ch_date := None; ch_other := [] |} in
  let st' := snd (DataEvents.updateEvent 9 "e1" data (Some "ana") (sampleStore d)) in
  Firestore.registerForEvent 10 "e1" "u1" st' = (inl "EventFull", st')
  ∧ ¬ withinCapacity "e1" 2 st'.
Proof.
  cbn zeta.
  destruct (lowered_capacity_closes_event 9 "e1"
              {| ch_status := None; ch_capacity := Some 2;
                 ch_registeredCount := None; ch_date := None; ch_other := [] |}
              "ana"
              {| status := "publicado"; capacity := Some 10; registeredCount := Some 4;
                 date := 0; createdAt := 0; updatedAt := 0;
                 other := [("organizerId", "ana")] |}
              2
              (sampleStore
                 {| status := "publicado"; capacity := Some 10; registeredCount := Some 4;
                    date := 0; createdAt := 0; updatedAt := 0;
                    other := [("organizerId", "ana")] |}))
    as (_ & Hfull & Hover).
  - reflexivity.
  - reflexivity.
  - reflexivity.
  - reflexivity.
  - cbn. lia.
  - split; [apply Hfull; reflexivity | apply Hover; cbn; lia].
Defined.

Lemma field_setFields_absent key changes : ∀ fields,
  field key changes = None →
  field key (setFields changes fields) = field key fields.
Proof.
  unfold setFields.
  induction changes as [|[k v] rest IH]; intros fields Habs; cbn in *; [reflexivity |].
  destruct (decide (k = key)) as [->|Hne].
  - rewrite bool_decide_eq_true_2 in Habs by done. discriminate.
  - rewrite bool_decide_eq_false_2 in Habs by done.
    rewrite (IH _ Habs). apply field_setField_other. congruence.
Qed.

(** X14.  An update by the organizer whose changes do not name
    [organizerId] leaves the organizer as it was: afterwards another user
    still gets [Unauthorized] from [updateEvent] and [deleteEvent], and the
    organizer can still update. *)
Theorem update_keeps_organizer now id data u d st :
  events st !! id = Some d →
  field "organizerId" (other d) = Some u →
  field "organizerId" (ch_other data) = None →
  let st' := snd (DataEvents.updateEvent now id data (Some u) st) in
  (∀ now' data' v, v ≠ "" → v ≠ u →
     DataEvents.updateEvent now' id data' (Some v) st' = (inl "Unauthorized", st')
     ∧ DataEvents.deleteEvent id (Some v) st' = (inl "Unauthorized", st'))
  ∧ ∀ now' data',
      ∃ updated st'',
        DataEvents.updateEvent now' id data' (Some u) st' = (inr (Some updated), st'').
Proof.
  intros He Hown Habs. cbn zeta.
  rewrite (update_by_organizer_result now id data u d st He Hown). cbn [snd].
  set (st' := {| events := <[id := Firestore.applyChanges now data d]> (events st);
                 registrations := registrations st |}).
  assert (events st' !! id = Some (Firestore.applyChanges now data d)) as Hnew
    by apply lookup_insert_eq.
  assert (field "organizerId" (other (Firestore.applyChanges now data d)) = Some u) as Hown'.
  { cbn. rewrite (field_setFields_absent _ _ _ Habs). exact Hown. }
  split.
  - intros now' data' v Hv Hvu.
    unfold DataEvents.updateEvent, DataEvents.deleteEvent, Firestore.getEventById.
    rewrite Hnew.
    rewrite (notOwner_true v (id, _) Hv) by (cbn [snd]; rewrite Hown'; congruence).
    done.
  - intros now' data'.
    rewrite (update_by_organizer_result now' id data' u _ st' Hnew Hown'). eauto.
Qed.

Lemma update_keeps_organizer_witness :
  let d := {| status := "borrador"; capacity := Some 3; registeredCount := Some 1;
              date := 0; createdAt := 0; updatedAt := 0;
              other := [("title", "Charla"); ("organizerId", "ana")] |} in
  let data := {| ch_status := Some "publicado"; ch_capacity := None;
                 ch_registeredCount := None; ch_date := None;
                 ch_other := [("title", "Taller")] |} in
  let st' := snd (DataEvents.updateEvent 9 "e1" data (Some "ana") (sampleStore d)) in
  DataEvents.deleteEvent "e1" (Some "luis") st' = (inl "Unauthorized", st').
Proof.
  cbn zeta.
  destruct (update_keeps_organizer 9 "e1"
              {| ch_status := Some "publicado"; ch_capacity := None;
                 ch_registeredCount := None; ch_date := None;
                 ch_other := [("title", "Taller")] |}
              "ana"
              {| status := "borrador"; capacity := Some 3; registeredCount := Some 1;
                 date := 0; createdAt := 0; updatedAt := 0;
                 other := [("title", "Charla"); ("organizerId", "ana")] |}
              (sampleStore
                 {| status := "borrador"; capacity := Some 3; registeredCount := Some 1;
                    date := 0; createdAt := 0; updatedAt := 0;
                    other := [("title", "Charla"); ("organizerId", "ana")] |}))
    as [Hothers _].
  - reflexivity.
  - reflexivity.
  - reflexivity.
  - apply (Hothers 0 {| ch_status := None; ch_capacity := None;
                        ch_registeredCount := None; ch_date := None; ch_other := [] |}
             "luis"); discriminate.
Defined.

(** ** Statistics *)

Lemma foldl_sum_acc {A} (f : A → Z) (l : list A) : ∀ a,
  foldl (λ sum e, sum + f e) a l = a + foldl (λ sum e, sum + f e) 0 l.
Proof.
  induction l as [|x l IH]; intros a; cbn; [lia |].
  rewrite (IH (a + f x)), (IH (0 + f x)). lia.
Qed.

Lemma foldl_sum_cons {A} (f : A → Z) x (l : list A) :
  foldl (λ sum e, sum + f e) 0 (x :: l) = f x + foldl (λ sum e, sum + f e) 0 l.
Proof. cbn. rewrite foldl_sum_acc. lia. Qed.

Lemma foldl_sum_perm {A} (f : A → Z) (l1 l2 : list A) :
  l1 ≡ₚ l2 →
  foldl (λ sum e, sum + f e) 0 l1 = foldl (λ sum e, sum + f e) 0 l2.
Proof.
  induction 1 as [|x l1 l2 _ IH|x y l|l1 l2 l3 _ IH1 _ IH2].
  - reflexivity.
  - rewrite !foldl_sum_cons, IH. reflexivity.
  - rewrite !foldl_sum_cons. lia.
  - congruence.
Qed.

Lemma foldl_sum_le {A} (f g : A → Z) (l : list A) :
  Forall (λ e, f e <= g e) l →
  foldl (λ sum e, sum + f e) 0 l <= foldl (λ sum e, sum + g e) 0 l.
Proof.
  induction 1 as [|x l Hx _ IH]; [reflexivity |].
  rewrite !foldl_sum_cons. lia.
Qed.

Lemma foldl_sum_nonneg {A} (f : A → Z) (l : list A) :
  Forall (λ e, 0 <= f e) l → 0 <= foldl (λ sum e, sum + f e) 0 l.
Proof.
  induction 1 as [|x l Hx _ IH]; [reflexivity |].
  rewrite foldl_sum_cons. lia.
Qed.

(** X15.  [getEventStats]: the upcoming events are among the published
    ones, and these among all; and when every event has
    [0 <= registeredCount <= capacity] (missing fields read as 0), the total
    registered is between 0 and the total capacity. *)
Theorem stats_bounds now st :
  let s := FirestoreCounter.getEventStats now st in
  0 <= FirestoreCounter.upcoming s <= FirestoreCounter.published s
  ∧ FirestoreCounter.published s <= FirestoreCounter.total s
  ∧ ((∀ id d, events st !! id = Some d →
        0 <= orZero (registeredCount d) <= orZero (capacity d)) →
     0 <= FirestoreCounter.totalRegistered s <= FirestoreCounter.totalCapacity s).
Proof.
  cbn. split; [| split].
  - split; [lia |]. apply inj_le, length_filter.
  - apply inj_le, length_filter.
  - intros Hall.
    assert (Forall (λ e, 0 <= orZero (registeredCount e) <= orZero (capacity e))
              (FirestoreCounter.allEvents st)) as Hfa.
    { apply Forall_forall. intros e He. unfold FirestoreCounter.allEvents in He.
      apply list_elem_of_fmap in He as [[i d] [-> Hin]].
      apply elem_of_map_to_list in Hin. apply (Hall i d Hin). }
    split.
    + apply foldl_sum_nonneg. eapply Forall_impl; [exact Hfa |]. cbn. intros; lia.
    + apply foldl_sum_le. eapply Forall_impl; [exact Hfa |]. cbn. intros; lia.
Qed.

Lemma stats_bounds_witness :
  let s := FirestoreCounter.getEventStats 5
             (sampleStore (sampleDoc "publicado" (Some 3) (Some 1))) in
  0 <= FirestoreCounter.totalRegistered s <= FirestoreCounter.totalCapacity s.
Proof.
  cbn zeta.
  destruct (stats_bounds 5 (sampleStore (sampleDoc "publicado" (Some 3) (Some 1))))
    as (_ & _ & Hsum).
  apply Hsum. intros i d Hd. cbn in Hd.
  apply lookup_singleton_Some in Hd as [_ <-]. cbn. lia.
Defined.

Lemma allEvents_replace (m : gmap string EventDoc) i d d' :
  m !! i = Some d →
  ∃ rest, snd <$> map_to_list m ≡ₚ d :: rest
          ∧ snd <$> map_to_list (<[i := d']> m) ≡ₚ d' :: rest.
Proof.
  intros Hi. exists (snd <$> map_to_list (delete i m)). split.
  - rewrite <- (map_to_list_delete m i d Hi). reflexivity.
  - rewrite <- (insert_delete_eq m i d').
    rewrite (map_to_list_insert (delete i m) i d') by apply lookup_delete_eq.
    reflexivity.
Qed.

Lemma length_filter_replace (P : EventDoc → Prop) `{∀ x, Decision (P x)}
    (l l' rest : list EventDoc) d d' :
  l ≡ₚ d :: rest → l' ≡ₚ d' :: rest → (P d ↔ P d') →
  length (filter P l') = length (filter P l).
Proof.
  intros Hl Hl' Hiff.
  rewrite (Permutation_length (filter_Permutation P _ _ Hl)).
  rewrite (Permutation_length (filter_Permutation P _ _ Hl')).
  rewrite !filter_cons.
  destruct (decide (P d)) as [Hd|Hd], (decide (P d')) as [Hd'|Hd']; try reflexivity;
    exfalso; tauto.
Qed.

(** X16.  A counter-only [registerForEvent] and [getEventStats]: a
    successful registration adds exactly one to [totalRegistered], a failed
    one adds nothing, and in both cases [total], [published], [upcoming] and
    [totalCapacity] stay as they were. *)
Theorem stats_after_registration nowS now eventId caller st :
  let r := FirestoreCounter.registerForEvent now eventId caller st in
  let s := FirestoreCounter.getEventStats nowS st in
  let s' := FirestoreCounter.getEventStats nowS (snd r) in
  FirestoreCounter.total s' = FirestoreCounter.total s
  ∧ FirestoreCounter.published s' = FirestoreCounter.published s
  ∧ FirestoreCounter.upcoming s' = FirestoreCounter.upcoming s
  ∧ FirestoreCounter.totalCapacity s' = FirestoreCounter.totalCapacity s
  ∧ FirestoreCounter.totalRegistered s'
    = FirestoreCounter.totalRegistered s + (if returnedSomeEvent (fst r) then 1 else 0).
Proof.
  cbn zeta.
  destruct (counter_outcome now eventId caller st) as [|d ev He Hcap Hs]; cbn [fst snd].
  { cbn. repeat split; lia. }
  set (d' := applyPatch {| patch_registeredCount := Some (orZero (registeredCount d) + 1);
                           patch_updatedAt := Some now |} d).
  destruct (allEvents_replace (events st) eventId d d' He) as (rest & Hl & Hl').
  unfold FirestoreCounter.getEventStats, FirestoreCounter.allEvents. cbn.
  split; [| split; [| split; [| split]]].
  - f_equal. rewrite (Permutation_length Hl), (Permutation_length Hl'). reflexivity.
  - f_equal. apply (length_filter_replace _ _ _ rest d d' Hl Hl'). reflexivity.
  - f_equal.
    apply (length_filter_replace _ _ _
             (filter (λ e, FirestoreCounter.isPublished e = true) rest) d d').
    + rewrite (filter_Permutation _ _ _ Hl), filter_cons.
      rewrite decide_True by (apply bool_decide_eq_true_2, Hs). reflexivity.
    + rewrite (filter_Permutation _ _ _ Hl'), filter_cons.
      rewrite decide_True by (apply bool_decide_eq_true_2, Hs). reflexivity.
    + reflexivity.
  - rewrite (foldl_sum_perm _ _ _ Hl), (foldl_sum_perm _ _ _ Hl').
    rewrite !foldl_sum_cons. reflexivity.
  - rewrite (foldl_sum_perm _ _ _ Hl), (foldl_sum_perm _ _ _ Hl').
    rewrite !foldl_sum_cons. cbn. lia.
Qed.

Lemma stats_example_one_registration :
  let st := sampleStore (sampleDoc "publicado" (Some 3) (Some 1)) in
  let r := FirestoreCounter.registerForEvent 4 "e1" None st in
  FirestoreCounter.totalRegistered (FirestoreCounter.getEventStats 0 st) = 1
  ∧ FirestoreCounter.totalRegistered (FirestoreCounter.getEventStats 0 (snd r)) = 2.
Proof. cbn zeta. split; reflexivity. Qed.

(** ** Authentication *)

Lemma falsy_false s :
  EventActions.falsy s = false → ∃ t, s = Some t ∧ t ≠ "".
Proof.
  destruct s as [t|]; cbn; [| discriminate].
  intros Hf. exists t. split; [reflexivity |].
  intros ->. rewrite bool_decide_eq_true_2 in Hf by reflexivity. discriminate.
Qed.

Lemma falsy_nonempty t : t ≠ "" → EventActions.falsy (Some t) = false.
Proof. intros Ht. cbn. by apply bool_decide_eq_false_2. Qed.

(** X17.  [validateAuth] gives a user id only for a token that
    [verifyIdToken] accepted, and that token is the one passed in or, when
    none (or an empty one) is passed, the session cookie.  A token that is
    passed in decides alone: when it is rejected the result is [null], also
    when the cookie holds a valid token.  Without token and without cookie
    the result is [null]. *)
Theorem validateAuth_only_verified pf idToken :
  (∀ uid, EventActions.validateAuth pf idToken = inr (Some uid) →
     ∃ t, t ≠ "" ∧ EventActions.verifyIdToken pf t = inr uid
          ∧ (idToken = Some t
             ∨ (EventActions.falsy idToken = true
                ∧ EventActions.cookieStore pf !! "firebase-auth-token" = Some t)))
  ∧ (∀ t, idToken = Some t → t ≠ "" →
       EventActions.validateAuth pf idToken
       = inr (match EventActions.verifyIdToken pf t with
              | inr uid => Some uid
              | inl _ => None
              end))
  ∧ (EventActions.falsy idToken = true →
     EventActions.falsy (EventActions.cookieStore pf !! "firebase-auth-token") = true →
     EventActions.validateAuth pf idToken = inr None).
Proof.
  unfold EventActions.validateAuth, EventActions.try_catch.
  split; [| split].
  - intros uid.
    destruct (EventActions.falsy idToken) eqn:Hid.
    + destruct (EventActions.falsy (EventActions.cookieStore pf !! "firebase-auth-token"))
        eqn:Hck; [discriminate |].
      destruct (falsy_false _ Hck) as (c & Hc & Hcne). rewrite Hc. simpl.
      destruct (EventActions.verifyIdToken pf c) as [e|u] eqn:Hv; [discriminate |].
      intros [= <-]. exists c. eauto.
    + destruct (falsy_false _ Hid) as (t & -> & Ht). simpl.
      destruct (EventActions.verifyIdToken pf t) as [e|u] eqn:Hv; [discriminate |].
      intros [= <-]. exists t. eauto.
  - intros t -> Ht. rewrite (falsy_nonempty t Ht). simpl.
    destruct (EventActions.verifyIdToken pf t); reflexivity.
  - intros -> ->. reflexivity.
Qed.

Lemma validateAuth_only_verified_witness :
  EventActions.validateAuth samplePlatform (Some "forged") = inr None
  ∧ EventActions.validateAuth samplePlatform None = inr (Some "u1").
Proof.
  destruct (validateAuth_only_verified samplePlatform (Some "forged")) as (_ & Hexplicit & _).
  split.
  - rewrite (Hexplicit "forged" eq_refl); [reflexivity | discriminate].
  - reflexivity.
Defined.

(** ** The register button *)

Lemma useOptimistic_closed_form (queued : list RegisterButton.OptimisticAction) : ∀ spots,
  queued ≠ [] →
  RegisterButton.useOptimistic spots queued = Z.max 0 (spots - Z.of_nat (length queued)).
Proof.
  unfold RegisterButton.useOptimistic.
  induction queued as [|x q IH]; intros spots Hne; [done |].
  destruct q as [|y q'].
  - cbn. unfold RegisterButton.reducer. lia.
  - change (fold_left RegisterButton.reducer (x :: y :: q') spots)
      with (fold_left RegisterButton.reducer (y :: q') (RegisterButton.reducer spots x)).
    rewrite IH by done. unfold RegisterButton.reducer.
    rewrite !length_cons. lia.
Qed.

(** X18.  The optimistic value of the button: with [n > 0] optimistic
    actions queued it is [max(0, availableSpots - n)], so it is never
    negative, and for [availableSpots >= 0] it is never above
    [availableSpots].  The button 'Registrarme (n plazas)' is only rendered
    when no transition is pending and the event is available, and the [n] it
    shows is the real [availableSpots], which is then positive. *)
Theorem optimistic_spots_bounds c :
  (RegisterButton.queued c ≠ [] →
   RegisterButton.optimisticSpots c
   = Z.max 0 (RegisterButton.availableSpots (RegisterButton.props c)
              - Z.of_nat (length (RegisterButton.queued c))))
  ∧ (0 <= RegisterButton.availableSpots (RegisterButton.props c) →
     0 <= RegisterButton.optimisticSpots c
       <= RegisterButton.availableSpots (RegisterButton.props c))
  ∧ ∀ n, RegisterButton.render c = RegisterButton.Registrarme n →
      n = RegisterButton.availableSpots (RegisterButton.props c)
      ∧ 0 < n
      ∧ RegisterButton.isAvailable (RegisterButton.props c) = true
      ∧ RegisterButton.isPending c = false.
Proof.
  assert (RegisterButton.queued c = []
          ∧ RegisterButton.optimisticSpots c
            = RegisterButton.availableSpots (RegisterButton.props c)
          ∨ RegisterButton.queued c ≠ []
            ∧ RegisterButton.optimisticSpots c
              = Z.max 0 (RegisterButton.availableSpots (RegisterButton.props c)
                         - Z.of_nat (length (RegisterButton.queued c)))) as Hform.
  { unfold RegisterButton.optimisticSpots.
    destruct (RegisterButton.queued c) as [|x q] eqn:Hq; [left; done |].
    right. split; [done |]. apply useOptimistic_closed_form. done. }
  split; [| split].
  - intros Hne. destruct Hform as [[Hq _]|[_ Hf]]; [contradiction | exact Hf].
  - intros Hpos. destruct Hform as [[_ ->]|[_ ->]]; lia.
  - intros n. unfold RegisterButton.render, RegisterButton.canRegister.
    destruct (RegisterButton.showRegistered c) eqn:Hshow; [discriminate |].
    apply bool_decide_eq_false_1 in Hshow.
    destruct (RegisterButton.isAvailable (RegisterButton.props c)); cbn [andb negb];
      [| destruct (bool_decide (_ = 0)); discriminate].
    destruct (bool_decide (RegisterButton.optimisticSpots c > 0)) eqn:Hpos; cbn [andb negb];
      [| destruct (bool_decide (_ = 0)); discriminate].
    apply bool_decide_eq_true_1 in Hpos.
    destruct (RegisterButton.isPending c); [discriminate |].
    intros [= <-].
    destruct Hform as [[_ Hf]|[_ Hf]]; rewrite Hf in *; repeat split; lia.
Qed.

Lemma optimistic_spots_bounds_witness :
  let c := RegisterButton.click (RegisterButton.mount (sampleProps 1)) in
  RegisterButton.optimisticSpots c = 0
  ∧ 0 <= RegisterButton.optimisticSpots c <= 1.
Proof.
  cbn zeta.
  destruct (optimistic_spots_bounds
              (RegisterButton.click (RegisterButton.mount (sampleProps 1))))
    as (Hform & Hbounds & _).
  split.
  - rewrite Hform; [reflexivity | discriminate].
  - apply Hbounds. vm_compute. discriminate.
Defined.

Lemma pending_not_clickable c :
  RegisterButton.isPending c = true → RegisterButton.clickable c = false.
Proof.
  intros Hp. unfold RegisterButton.clickable, RegisterButton.render. rewrite Hp.
  destruct (RegisterButton.showRegistered c); [reflexivity |].
  destruct (negb _); [destruct (bool_decide _) |]; reflexivity.
Qed.

(** X19.  At most one registration attempt is in flight: once the button
    has been clicked it cannot be clicked again until the transition ends,
    so further clicks change nothing and queue no second optimistic
    action. *)
Theorem second_click_ignored c :
  RegisterButton.clickable (RegisterButton.click c) = false
  ∧ RegisterButton.click (RegisterButton.click c) = RegisterButton.click c
  ∧ (length (RegisterButton.queued (RegisterButton.click c))
     <= S (length (RegisterButton.queued c)))%nat.
Proof.
  assert (∀ c', RegisterButton.clickable c' = false → RegisterButton.click c' = c') as Hno
    by (intros c' Hc'; unfold RegisterButton.click; by rewrite Hc').
  destruct (RegisterButton.clickable c) eqn:Hc.
  - assert (RegisterButton.click c = RegisterButton.handleRegister_start c) as ->
      by (unfold RegisterButton.click; by rewrite Hc).
    assert (RegisterButton.clickable (RegisterButton.handleRegister_start c) = false) as Hn
      by (apply pending_not_clickable; reflexivity).
    split; [exact Hn |]. split; [apply Hno, Hn |].
    cbn. rewrite length_app. cbn. lia.
  - rewrite (Hno c Hc). split; [exact Hc |]. split; [apply Hno, Hc | lia].
Qed.

(** X20.  When the server action has answered, the button is the one a
    freshly mounted component shows for the props it now has: nothing in the
    component remembers a confirmed registration.  So after a failure the
    user can try again, and after a success the button reads
    'Registrarme' again whenever the new props still offer places. *)
Theorem button_after_attempt result fresh c :
  let c' := RegisterButton.settle result fresh c in
  RegisterButton.render c'
  = RegisterButton.render
      (RegisterButton.mount
         (if EventActions.success result then fresh else RegisterButton.props c))
  ∧ (EventActions.success result = false → settled c →
     RegisterButton.clickable c' = RegisterButton.clickable c)
  ∧ (EventActions.success result = true →
     RegisterButton.isAvailable fresh = true →
     0 < RegisterButton.availableSpots fresh →
     RegisterButton.render c'
     = RegisterButton.Registrarme (RegisterButton.availableSpots fresh)).
Proof.
  cbn zeta. split; [reflexivity |]. split.
  - intros Hfail [Hp Hq]. unfold RegisterButton.clickable.
    rewrite (render_same_state (RegisterButton.settle result fresh c) c); [reflexivity | | |].
    + unfold RegisterButton.settle, RegisterButton.handleRegister_resume.
      rewrite Hfail. reflexivity.
    + by rewrite Hp.
    + by rewrite Hq.
  - intros Hok Hav Hpos.
    rewrite (render_same_state (RegisterButton.settle result fresh c)
               (RegisterButton.mount fresh));
      [| unfold RegisterButton.settle; by rewrite Hok | reflexivity | reflexivity].
    unfold RegisterButton.render, RegisterButton.canRegister.
    assert (RegisterButton.optimisticSpots (RegisterButton.mount fresh)
            = RegisterButton.availableSpots fresh) as Hopt by reflexivity.
    assert (RegisterButton.showRegistered (RegisterButton.mount fresh) = false) as ->.
    { unfold RegisterButton.showRegistered. rewrite Hopt.
      apply bool_decide_eq_false_2. cbn. lia. }
    rewrite Hopt. cbn [RegisterButton.props RegisterButton.mount RegisterButton.isPending].
    rewrite Hav. rewrite (bool_decide_eq_true_2 (_ > _)) by lia. reflexivity.
Qed.

Lemma button_after_attempt_witness :
  let c := RegisterButton.click (RegisterButton.mount (sampleProps 3)) in
  let ev := FirestoreCounter.docToEvent "e1" (sampleDoc "publicado" (Some 5) (Some 3)) in
  RegisterButton.render (RegisterButton.settle (succeededWith ev) (sampleProps 2) c)
  = RegisterButton.Registrarme 2.
Proof.
  cbn zeta.
  destruct (button_after_attempt
              (succeededWith
                 (FirestoreCounter.docToEvent "e1" (sampleDoc "publicado" (Some 5) (Some 3))))
              (sampleProps 2)
              (RegisterButton.click (RegisterButton.mount (sampleProps 3))))
    as (_ & _ & Hagain).
  apply Hagain; [reflexivity | reflexivity | cbn; lia].
Defined.

(** ** The register action, end to end *)



(** ** No registration is committed *)


